(** * one_model_update.py: a page monitor with on-disk state

    A shallow embedding of [one_model_update.py] and the properties of its
    change detection, state store and table extraction.

    Conventions of the model.
    - A Python [str] is the Rocq [string] of its UTF-8 bytes.  White space
      is Python's ([str.isspace], the regex class [\s]), also beyond
      ASCII; the decimal digits of the regex class [\d] are the ASCII
      ones, so a stamp or a date file written in other digits is outside
      the model.
    - Library calls whose code is outside the script (the HTML parser,
      [pandas.read_html], [DataFrame.to_csv], [hash_pandas_object], MD5)
      are parameters of the section [Script].
    - The file system, the console and the SMTP submissions form the
      [world]; an exception keeps the world it was raised in, so writes
      done before a failure stay visible.
    - Opening and writing a state file succeed in [save_current_state];
      a save that stops early, because the process is stopped or because
      one of its statements raises, is [interrupted_save] and
      [save_failing_at]. *)

From Stdlib Require Import ZArith Ascii String Lia.
From Stdlib.Strings Require Byte.
From stdpp Require Import base option list gmap strings pretty.

(** ** Exceptions and results *)

Inductive exn : Type :=
  | ValueError (msg : string)
  | KeyError (key : string)
  | AttributeError (msg : string)
  | RequestException (msg : string)
  | SMTPException (msg : string)
  | OtherError (msg : string).

Inductive result (A : Type) : Type :=
  | Ok (a : A)
  | Raise (e : exn).
Arguments Ok {A} a.
Arguments Raise {A} e.

Definition apostrophe : string := String (ascii_of_nat 39) "".

(** [str(e)]: the message, except that a [KeyError] shows the [repr] of its
    key (the keys raised here contain neither quotes nor escapes). *)
Definition exn_str (e : exn) : string :=
  match e with
  | KeyError k => apostrophe +:+ k +:+ apostrophe
  | ValueError m | AttributeError m | RequestException m
  | SMTPException m | OtherError m => m
  end.

(** ** Characters and [str] methods *)

(** The ASCII members of [str.isspace], which is also the regex class [\s]:
    U+0009 to U+000D, U+001C to U+001F and the space. *)
Definition py_isspace (c : ascii) : bool :=
  let n := nat_of_ascii c in
  ((9 <=? n) && (n <=? 13) || (28 <=? n) && (n <=? 32))%nat.

(** The other members, by their UTF-8 bytes.  Two bytes: U+0085 and U+00A0. *)
Definition is_space2 (c1 c2 : ascii) : bool :=
  let a := nat_of_ascii c1 in
  let b := nat_of_ascii c2 in
  ((a =? 194) && ((b =? 133) || (b =? 160)))%nat.

(** Three bytes: U+1680, U+2000 to U+200A, U+2028, U+2029, U+202F, U+205F
    and U+3000. *)
Definition is_space3 (c1 c2 c3 : ascii) : bool :=
  let a := nat_of_ascii c1 in
  let b := nat_of_ascii c2 in
  let c := nat_of_ascii c3 in
  ((a =? 225) && (b =? 154) && (c =? 128)
   || (a =? 226) && (b =? 128)
      && ((128 <=? c) && (c <=? 138) || (c =? 168) || (c =? 169) || (c =? 175))
   || (a =? 226) && (b =? 129) && (c =? 159)
   || (a =? 227) && (b =? 128) && (c =? 128))%nat.

(** A printable ASCII character other than the space. *)
Definition is_plain (c : ascii) : bool :=
  let n := nat_of_ascii c in ((33 <=? n) && (n <=? 126))%nat.

(** The regex class [\d], on ASCII. *)
Definition py_isdigit (c : ascii) : bool :=
  let n := nat_of_ascii c in ((48 <=? n) && (n <=? 57))%nat.

Definition in_range (lo hi : ascii) (c : ascii) : bool :=
  ((nat_of_ascii lo <=? nat_of_ascii c) && (nat_of_ascii c <=? nat_of_ascii hi))%nat.

(** White space is dropped from the front, one character of one, two or
    three bytes at a time; [sp2] and [sp3] recognise the longer ones. *)
Fixpoint lstrip_with (sp2 : ascii → ascii → bool) (sp3 : ascii → ascii → ascii → bool)
    (l : list ascii) : list ascii :=
  match l with
  | [] => []
  | c1 :: r1 =>
      if py_isspace c1 then lstrip_with sp2 sp3 r1
      else
        match r1 with
        | c2 :: r2 =>
            if sp2 c1 c2 then lstrip_with sp2 sp3 r2
            else
              match r2 with
              | c3 :: r3 => if sp3 c1 c2 c3 then lstrip_with sp2 sp3 r3 else l
              | [] => l
              end
        | [] => l
        end
  end.

(** [s.lstrip()] *)
Definition lstrip_chars (l : list ascii) : list ascii :=
  lstrip_with is_space2 is_space3 l.

(** [s.rstrip()]: the same from the back, where the bytes of a character
    come last byte first. *)
Definition rstrip_chars (l : list ascii) : list ascii :=
  rev (lstrip_with (λ a b, is_space2 b a) (λ a b c, is_space3 c b a) (rev l)).

(** [s.strip()] *)
Definition strip (s : string) : string :=
  string_of_list_ascii (rstrip_chars (lstrip_chars (list_ascii_of_string s))).

(** [sep.join(parts)] *)
Fixpoint join (sep : string) (parts : list string) : string :=
  match parts with
  | [] => ""
  | [p] => p
  | p :: rest => p +:+ sep +:+ join sep rest
  end.

Definition string_is_empty (s : string) : bool :=
  match s with "" => true | _ => false end.

(** ** Calendar dates *)

Record date : Type := Date { year : Z; month : Z; day : Z }.

Global Instance date_eq_dec : EqDecision date.
Proof. solve_decision. Defined.

Definition is_leap (y : Z) : bool :=
  ((y mod 4 =? 0) && (negb (y mod 100 =? 0) || (y mod 400 =? 0)))%Z.

Definition days_in_month (y m : Z) : Z :=
  if (m =? 2)%Z then (if is_leap y then 29 else 28)%Z
  else if ((m =? 4) || (m =? 6) || (m =? 9) || (m =? 11))%Z then 30%Z
  else 31%Z.

Definition valid_date (d : date) : bool :=
  ((1 <=? year d) && (year d <=? 9999) && (1 <=? month d) && (month d <=? 12)
   && (1 <=? day d) && (day d <=? days_in_month (year d) (month d)))%Z.

(** [datetime.date(y, m, d)]: the year is checked first, then the month,
    then the day. *)
Definition make_date (y m d : Z) : result date :=
  if negb ((1 <=? y) && (y <=? 9999))%Z
  then Raise (ValueError ("year " +:+ pretty y +:+ " is out of range"))
  else if negb ((1 <=? m) && (m <=? 12))%Z
  then Raise (ValueError "month must be in 1..12")
  else if negb ((1 <=? d) && (d <=? days_in_month y m))%Z
  then Raise (ValueError "day is out of range for month")
  else Ok (Date y m d).

Definition digit_char (k : Z) : ascii := ascii_of_nat (48 + Z.to_nat k).

Definition pad2 (n : Z) : string :=
  String (digit_char (n / 10 mod 10)) (String (digit_char (n mod 10)) "").

Definition pad4 (n : Z) : string :=
  String (digit_char (n / 1000 mod 10))
    (String (digit_char (n / 100 mod 10)) (pad2 n)).

(** [str(d)], that is [d.isoformat()]. *)
Definition date_isoformat (d : date) : string :=
  pad4 (year d) +:+ "-" +:+ pad2 (month d) +:+ "-" +:+ pad2 (day d).

(** [d.strftime("%Y-%m-%d")].  The C library decides how a year below 1000
    is padded; the dates this script formats come from [fetch_update_date]
    and have four-digit years, where every platform agrees with
    [isoformat]. *)
Definition strftime_Ymd (d : date) : string := date_isoformat d.

(** [str(x)] for an optional date: [None] prints as the word None. *)
Definition str_opt_date (o : option date) : string :=
  match o with
  | Some d => date_isoformat d
  | None => "None"
  end.

(** ** Regular expressions by lists of successes

    A matcher returns every way to match a prefix, in the order in which a
    backtracking engine tries them; the first element is the engine's
    answer. *)

Definition matcher (A : Type) : Type := string → list (A * string).

Definition m_ret {A} (a : A) : matcher A := λ s, [(a, s)].

Definition m_bind {A B} (m : matcher A) (f : A → matcher B) : matcher B :=
  λ s, flat_map (λ p, f (fst p) (snd p)) (m s).

(** Alternation [p1|p2|...]: the alternatives are tried from the left. *)
Definition m_alt {A} (ps : list (matcher A)) : matcher A :=
  λ s, flat_map (λ p, p s) ps.

Global Instance matcher_ret : MRet matcher := @m_ret.
Global Instance matcher_bind : MBind matcher := λ A B f m, m_bind m f.

Definition m_char (P : ascii → bool) : matcher ascii := λ s,
  match s with
  | String c r => if P c then [(c, r)] else []
  | "" => []
  end.

Fixpoint m_lit (lit : string) : matcher unit := λ s,
  match lit with
  | "" => [(tt, s)]
  | String c lit' =>
      match s with
      | String c' r => if decide (c = c') then m_lit lit' r else []
      | "" => []
      end
  end.

(** [\s*], greedy: the longest run first.  A white-space character takes
    one, two or three bytes. *)
Fixpoint m_spaces (s : string) : list (unit * string) :=
  match s with
  | "" => [(tt, "")]
  | String c1 r1 =>
      if py_isspace c1 then m_spaces r1 ++ [(tt, s)]
      else
        match r1 with
        | String c2 r2 =>
            if is_space2 c1 c2 then m_spaces r2 ++ [(tt, s)]
            else
              match r2 with
              | String c3 r3 =>
                  if is_space3 c1 c2 c3 then m_spaces r3 ++ [(tt, s)] else [(tt, s)]
              | "" => [(tt, s)]
              end
        | "" => [(tt, s)]
        end
  end.

Definition digit_value (c : ascii) : Z := Z.of_nat (nat_of_ascii c) - 48.

(** One character of a class, as its decimal value. *)
Definition m_val (P : ascii → bool) : matcher Z :=
  c ← m_char P; mret (digit_value c).

Definition m_one (c : ascii) : matcher ascii := m_char (λ x, bool_decide (x = c)).

(** [\d] and [\d{1,2}] (greedy), as the matched text. *)
Definition m_digit : matcher string :=
  c ← m_char py_isdigit; mret (String c "").

Definition m_digits_1_2 : matcher string :=
  m_alt [ (a ← m_digit; b ← m_digit; mret (a +:+ b)); m_digit ].

(** [re.search]: the leftmost start at which the pattern matches. *)
Fixpoint re_search {A} (m : matcher A) (s : string) : option A :=
  match m s with
  | (a, _) :: _ => Some a
  | [] => match s with
          | "" => None
          | String _ r => re_search m r
          end
  end.

(** The directives of [_strptime]'s format regex:
    [%m] is [1[0-2]|0[1-9]|[1-9]],
    [%d] is [3[0-1]|[1-2]\d|0[1-9]|[1-9]| [1-9]],
    [%y] is [\d\d] and [%Y] is [\d\d\d\d]. *)
Definition re_m : matcher Z :=
  m_alt [ (m_one "1";; v ← m_val (in_range "0" "2"); mret (10 + v)%Z);
          (m_one "0";; m_val (in_range "1" "9"));
          m_val (in_range "1" "9") ].

Definition re_d : matcher Z :=
  m_alt [ (m_one "3";; v ← m_val (in_range "0" "1"); mret (30 + v)%Z);
          (a ← m_val (in_range "1" "2"); b ← m_val py_isdigit;
           mret (10 * a + b)%Z);
          (m_one "0";; m_val (in_range "1" "9"));
          m_val (in_range "1" "9");
          (m_one " ";; m_val (in_range "1" "9")) ].

Definition re_y : matcher Z :=
  a ← m_val py_isdigit; b ← m_val py_isdigit; mret (10 * a + b)%Z.

Definition re_Y : matcher Z :=
  a ← m_val py_isdigit; b ← m_val py_isdigit;
  c ← m_val py_isdigit; d ← m_val py_isdigit;
  mret (1000 * a + 100 * b + 10 * c + d)%Z.

(** The tail of [_strptime]: the regex is applied with [match]; no match, or
    text left after the match, is a [ValueError]; the fields then go through
    the [date] constructor. *)
Definition strptime_finish (found : list ((Z * Z * Z) * string))
    (data_string fmt : string) : result date :=
  match found with
  | [] => Raise (ValueError ("time data " +:+ apostrophe +:+ data_string +:+ apostrophe
                             +:+ " does not match format " +:+ apostrophe +:+ fmt
                             +:+ apostrophe))
  | ((y, m, d), rest) :: _ =>
      if string_is_empty rest then make_date y m d
      else Raise (ValueError ("unconverted data remains: " +:+ rest))
  end.

(** [datetime.strptime(s, "%m/%d/%y").date()]; a two-digit year up to 68 is
    in the 2000s, one from 69 on is in the 1900s. *)
Definition strptime_mdy (s : string) : result date :=
  strptime_finish
    ((m ← re_m; m_lit "/";; d ← re_d; m_lit "/";; y ← re_y;
      mret ((if (y <=? 68)%Z then y + 2000 else y + 1900)%Z, m, d)) s)
    s "%m/%d/%y".

(** [datetime.strptime(s, "%Y-%m-%d").date()] *)
Definition strptime_Ymd (s : string) : result date :=
  strptime_finish
    ((y ← re_Y; m_lit "-";; m ← re_m; m_lit "-";; d ← re_d;
      mret (y, m, d)) s)
    s "%Y-%m-%d".

(** The pattern of [fetch_update_date],
    [Last update:\s*(\d{1,2}/\d{1,2}/\d{2})], returning group 1. *)
Definition last_update_re : matcher string :=
  m_lit "Last update:";; m_spaces;;
  m ← m_digits_1_2; m_lit "/";;
  d ← m_digits_1_2; m_lit "/";;
  y1 ← m_digit; y2 ← m_digit;
  mret (m +:+ "/" +:+ d +:+ "/" +:+ y1 +:+ y2).


(** ** The parsed page

    A BeautifulSoup tree: tags with attributes and children, and text
    strings.  Strings of the other kinds (comments, doctype) are left out:
    neither [find_all] nor [get_text] sees them. *)

#[warnings="-register-all"]
Inductive node : Type :=
  | Tag (name : string) (attrs : list (string * string)) (children : list node)
  | NavigableString (text : string).

(** [n] followed by everything below it, in document order. *)
Fixpoint self_and_descendants (n : node) : list node :=
  n :: match n with
       | Tag _ _ children => flat_map self_and_descendants children
       | NavigableString _ => []
       end.

(** [soup.descendants]: every element of the page in document order. *)
Definition descendants (soup : list node) : list node :=
  flat_map self_and_descendants soup.

Definition is_tag (n : node) : bool :=
  match n with Tag _ _ _ => true | NavigableString _ => false end.

Definition has_name (name : string) (n : node) : bool :=
  match n with
  | Tag name' _ _ => bool_decide (name' = name)
  | NavigableString _ => false
  end.

Definition string_of_node (n : node) : option string :=
  match n with NavigableString s => Some s | Tag _ _ _ => None end.

Definition concat_strings (l : list string) : string := foldr String.append "" l.

(** [soup.text]: the text strings of the page, concatenated. *)
Definition soup_text (soup : list node) : string :=
  concat_strings (omap string_of_node (descendants soup)).

(** [tag.get_text(strip=True)]: every text string below the tag is
    stripped, the empty ones are dropped, the rest are concatenated. *)
Definition get_text_strip (n : node) : string :=
  concat_strings
    (filter (λ s, s ≠ "") (strip <$> omap string_of_node (self_and_descendants n))).

(** [table.find_all_previous()]: the tags among [previous_elements]. *)
Definition find_all_previous (previous_elements : list node) : list node :=
  filter (λ n, is_tag n = true) previous_elements.

(** [soup.find_all("table")], each table with its [previous_elements]: the
    elements before it, nearest first.  The walk keeps the elements already
    passed in [before]. *)
Fixpoint tables_from (before rest : list node) : list (list node * node) :=
  match rest with
  | [] => []
  | n :: rest' =>
      (if has_name "table" n then [(before, n)] else [])
      ++ tables_from (n :: before) rest'
  end.

Definition find_all_tables (soup : list node) : list (list node * node) :=
  tables_from [] (descendants soup).

(** ** Data frames *)

Inductive cell : Type :=
  | CStr (s : string)
  | CInt (n : Z)
  | CFloat (bits : Z).

Inductive label : Type :=
  | LInt (n : Z)
  | LStr (s : string).

Global Instance cell_eq_dec : EqDecision cell.
Proof. solve_decision. Defined.
Global Instance label_eq_dec : EqDecision label.
Proof. solve_decision. Defined.

Record DataFrame : Type := Frame {
  df_columns : list label;
  df_index : list label;
  df_rows : list (list cell)
}.

(** [df.empty]: some axis has length 0. *)
Definition df_empty (df : DataFrame) : bool :=
  bool_decide (df_columns df = []) || bool_decide (df_rows df = []).

(** [df.columns = names] *)
Definition set_columns (df : DataFrame) (names : list string) : result DataFrame :=
  if decide (length (df_columns df) = length names)
  then Ok (Frame (LStr <$> names) (df_index df) (df_rows df))
  else Raise (ValueError
         ("Length mismatch: Expected axis has " +:+ pretty (length (df_columns df))
          +:+ " elements, new values have " +:+ pretty (length names)
          +:+ " elements")).

Definition range_index (n : nat) : list label :=
  (λ k, LInt (Z.of_nat k)) <$> seq 0 n.

(** [df.drop(index=0)]: the rows labelled 0 go; no such row is a
    [KeyError]. *)
Definition drop_index_0 (df : DataFrame) : result DataFrame :=
  if bool_decide (LInt 0 ∈ df_index df)
  then
    let kept := filter (λ p, fst p ≠ LInt 0) (zip (df_index df) (df_rows df)) in
    Ok (Frame (df_columns df) (fst <$> kept) (snd <$> kept))
  else Raise (KeyError "[0] not found in axis").

(** [df.reset_index(drop=True)] *)
Definition reset_index (df : DataFrame) : DataFrame :=
  Frame (df_columns df) (range_index (length (df_rows df))) (df_rows df).

(** [df[name] = value] for a column name the frame does not have yet. *)
Definition add_column (df : DataFrame) (name : string) (value : cell) : DataFrame :=
  Frame (df_columns df ++ [LStr name]) (df_index df)
        ((λ row, row ++ [value]) <$> df_rows df).

(** [pd.concat([a, b])] for two frames with the same columns: the rows and
    the index labels of [b] follow those of [a]. *)
Definition concat (a b : DataFrame) : DataFrame :=
  Frame (df_columns a) (df_index a ++ df_index b) (df_rows a ++ df_rows b).

(** ** The world and the script's monad *)

Record world : Type := World {
  files : gmap string string;
  stdout : list string;
  smtp_log : list string
}.

(** A computation reads and changes the world, and returns or raises. *)
Definition M (A : Type) : Type := world → result A * world.

Global Instance M_ret : MRet M := λ A a w, (Ok a, w).
Global Instance M_bind : MBind M := λ A B f m w,
  match m w with
  | (Ok a, w') => f a w'
  | (Raise e, w') => (Raise e, w')
  end.

Definition raise {A} (e : exn) : M A := λ w, (Raise e, w).

Definition lift {A} (r : result A) : M A := λ w, (r, w).

Definition add_stdout (w : world) (lines : list string) : world :=
  World (files w) (stdout w ++ lines) (smtp_log w).

Definition print (line : string) : M unit := λ w, (Ok tt, add_stdout w [line]).

(** [os.path.exists(path)] *)
Definition path_exists (path : string) : M bool := λ w,
  (Ok (bool_decide (is_Some (files w !! path))), w).

(** [open(path, "r").read()] *)
Definition read_file (path : string) : M string := λ w,
  match files w !! path with
  | Some content => (Ok content, w)
  | None => (Raise (OtherError "No such file or directory"), w)
  end.

(** [open(path, "w")]: the file exists and is empty from here on. *)
Definition open_w (path : string) : M unit := λ w,
  (Ok tt, World (<[path := ""]> (files w)) (stdout w) (smtp_log w)).

(** [f.write(s)] *)
Definition write (path : string) (s : string) : M unit := λ w,
  (Ok tt, World (<[path := default "" (files w !! path) +:+ s]> (files w))
                (stdout w) (smtp_log w)).

(** Statements run one after the other. *)
Definition run_steps (steps : list (M unit)) : M unit :=
  foldr (λ step rest, step;; rest) (mret tt) steps.

(** ** Configuration *)

Definition LAST_DATE_FILE : string := "last_update_date.txt".
Definition LAST_HASH_FILE : string := "last_data_hash.txt".
Definition COMBINED_CSV_FILE : string := "latest_combined.csv".
Definition EMAIL_NOTIFICATION : bool := true.

Definition newline : string := String (ascii_of_nat 10) "".

(** ** What a run receives from outside *)

Record response : Type := Response { status_code : Z; text : string }.

Record env : Type := Env {
  now_start : string;            (* the clock, formatted, at the start *)
  now_end : string;              (* and at the end *)
  http : result response;        (* what [requests.get(URL)] does *)
  smtp_error : option exn        (* what the SMTP session does *)
}.

(** ** Digests *)

Definition byte_of_Z (z : Z) : Byte.byte :=
  default Byte.x00 (Byte.of_N (Z.to_N (z mod 256))).

(** The eight bytes of a [uint64], least significant first. *)
Definition uint64_bytes (h : Z) : list Byte.byte :=
  (λ i, byte_of_Z (Z.land (Z.shiftr h (8 * Z.of_nat i)) 255)) <$> seq 0 8.

Definition hex_digit (n : N) : ascii :=
  if (n <? 10)%N then ascii_of_N (48 + n) else ascii_of_N (87 + n).

(** [digest.hex()] *)
Fixpoint hex (bs : list Byte.byte) : string :=
  match bs with
  | [] => ""
  | b :: rest =>
      String (hex_digit (Byte.to_N b / 16)) (String (hex_digit (Byte.to_N b mod 16)) (hex rest))
  end.

Global Instance result_ret : MRet result := @Ok.
Global Instance result_bind : MBind result := λ A B f r,
  match r with
  | Ok a => f a
  | Raise e => Raise e
  end.

(** ** fetch_update_date *)

Definition fetch_update_date (soup : list node) : result (option date) :=
  match re_search last_update_re (soup_text soup) with
  | Some group1 => d ← strptime_mdy group1; Ok (Some d)
  | None => Ok None
  end.

(** ** The nearest heading of a table *)

Definition columns : list string :=
  ["Date"; "Loc."; "Title"; "Company"; "Location"; "Link"].

Definition title_tags : list string := ["h1"; "h2"; "h3"; "h4"; "strong"; "p"].

Definition name_in (names : list string) (n : node) : bool :=
  match n with
  | Tag name _ _ => bool_decide (name ∈ names)
  | NavigableString _ => false
  end.

(** The inner loop of [extract_and_combine_tables]: [title] starts as the
    synthetic label and becomes the text of the first listed tag, going
    backwards, whose stripped text is not empty. *)
Fixpoint nearest_title (prevs : list node) (title : string) : string :=
  match prevs with
  | [] => title
  | prev :: rest =>
      if name_in title_tags prev then
        let text := get_text_strip prev in
        if string_is_empty text then nearest_title rest title else text
      else nearest_title rest title
  end.

Definition untitled (i : nat) : string := "Untitled Table " +:+ pretty (i + 1)%nat.

Definition table_title (i : nat) (previous_elements : list node) : string :=
  nearest_title (find_all_previous previous_elements) (untitled i).

(** ** The change detector (lines 133 to 144 of [main]) *)

Definition date_message (prev_date : option date) (latest : date) : string :=
  "🗓️ Page update date changed: " +:+ str_opt_date prev_date +:+ " → "
  +:+ date_isoformat latest.

Definition content_message : string := "📈 Table content has changed since last check.".

(** A date is always truthy, so [latest_update_date and ...] tests for
    [None] only. *)
Definition detect_changes (latest_update_date : option date) (current_hash : string)
    (prev_date : option date) (prev_hash : option string) : bool * list string :=
  let update_detected := false in
  let messages := [] in
  let '(update_detected, messages) :=
    match latest_update_date with
    | Some d =>
        if bool_decide (Some d ≠ prev_date)
        then (true, messages ++ [date_message prev_date d])
        else (update_detected, messages)
    | None => (update_detected, messages)
    end in
  if bool_decide (Some current_hash ≠ prev_hash)
  then (true, messages ++ [content_message])
  else (update_detected, messages).

(** ** load_previous_state *)

Definition load_previous_state : M (option date * option string) :=
  has_date ← path_exists LAST_DATE_FILE;
  last_date ← (if has_date : bool
               then s ← read_file LAST_DATE_FILE;
                    d ← lift (strptime_Ymd (strip s));
                    mret (Some d)
               else mret None);
  has_hash ← path_exists LAST_HASH_FILE;
  last_hash ← (if has_hash : bool
               then s ← read_file LAST_HASH_FILE; mret (Some (strip s))
               else mret None);
  mret (last_date, last_hash).

(** ** send_email_alert

    The session is recorded as attempted before its outcome is known. *)
Definition send_email_alert (e : env) (message_body : string) : M unit :=
  (λ w, (Ok tt, World (files w) (stdout w) (smtp_log w ++ [message_body])));;
  match smtp_error e with
  | Some err => raise err
  | None => print "📧 Email alert sent!"
  end.

Section Script.

(** [BeautifulSoup(html, "html.parser")], as the children of the document. *)
Variable BeautifulSoup : string → list node.
(** [pd.read_html(str(table), header=None)[0]] *)
Variable read_html : node → result DataFrame.
(** [df.to_csv(index=False)], the text written to the file. *)
Variable to_csv : DataFrame → string.
(** [pd.util.hash_pandas_object(df, index=True).values]: one [uint64] per row. *)
Variable hash_pandas_object : DataFrame → list Z.
(** [hashlib.md5(data).digest()] *)
Variable md5 : list Byte.byte → list Byte.byte.

(** [hashlib.md5(pd.util.hash_pandas_object(df, index=True).values).hexdigest()] *)
Definition fingerprint (df : DataFrame) : string :=
  hex (md5 (flat_map uint64_bytes (hash_pandas_object df))).

(** The body of the [try] in [extract_and_combine_tables]: the frame of
    one table (lines 55 to 58), then its concatenation (line 59). *)
Definition table_frame (table : node) (title : string) : result DataFrame :=
  df ← read_html table;
  df ← set_columns df columns;
  df ← drop_index_0 df;
  let df := reset_index df in
  let df := add_column df "Level" (CStr title) in
  Ok df.

Definition parse_table (table : node) (title : string) (data : DataFrame)
    : result DataFrame :=
  df ← table_frame table title;
  Ok (concat data df).

Definition warning (i : nat) (e : exn) : string :=
  "⚠️ Failed to parse table " +:+ pretty (i + 1)%nat +:+ ": " +:+ exn_str e.

(** The [for i, table in enumerate(tables)] loop, from index [i] on. *)
Fixpoint extract_loop (i : nat) (tables : list (list node * node))
    (data : DataFrame) : M DataFrame :=
  match tables with
  | [] => mret data
  | (previous_elements, table) :: rest =>
      let title := table_title i previous_elements in
      match parse_table table title data with
      | Ok data' => extract_loop (S i) rest data'
      | Raise e => print (warning i e);; extract_loop (S i) rest data
      end
  end.

Definition empty_frame : DataFrame :=
  Frame (LStr <$> (columns ++ ["Level"])) [] [].

Definition extract_and_combine_tables (soup : list node) : M DataFrame :=
  extract_loop 0 (find_all_tables soup) empty_frame.

(** The statements of [save_current_state], in order.  [STORAGE_DIR] is
    the current directory, which exists, so nothing is created first. *)
Definition save_steps (update_date : option date) (data_df : DataFrame)
    : list (M unit) :=
  [ open_w LAST_DATE_FILE;
    match update_date with
    | Some d => write LAST_DATE_FILE (strftime_Ymd d)
    | None => raise (AttributeError
                "'NoneType' object has no attribute 'strftime'")
    end;
    open_w COMBINED_CSV_FILE;
    write COMBINED_CSV_FILE (to_csv data_df);
    open_w LAST_HASH_FILE;
    write LAST_HASH_FILE (fingerprint data_df) ].

Definition save_current_state (update_date : option date) (data_df : DataFrame)
    : M unit :=
  run_steps (save_steps update_date data_df).

(** A save that is cut off after its first [k] statements. *)
Definition interrupted_save (k : nat) (update_date : option date)
    (data_df : DataFrame) : M unit :=
  run_steps (take k (save_steps update_date data_df)).

(** A save in which the statement after the first [k] raises [x]: a file
    that cannot be opened or written, or a failure inside [to_csv] or the
    digest. *)
Definition save_failing_at (k : nat) (x : exn) (update_date : option date)
    (data_df : DataFrame) : M unit :=
  run_steps (take k (save_steps update_date data_df) ++ [raise x]).

Definition main (e : env) : M unit :=
  print ("Job started at: " +:+ now_start e);;
  print "🔍 Checking OneModel roles page...";;
  response ← lift (http e);
  let soup := BeautifulSoup (text response) in
  latest_update_date ← lift (fetch_update_date soup);
  combined_df ← extract_and_combine_tables soup;
  if df_empty combined_df then
    print "❌ No tables found. Aborting."
  else
    prev ← load_previous_state;
    let current_hash := fingerprint combined_df in
    let detected := detect_changes latest_update_date current_hash prev.1 prev.2 in
    (if detected.1 then
       print "✅ Changes detected! Saving and notifying...";;
       save_current_state latest_update_date combined_df;;
       if EMAIL_NOTIFICATION
       then send_email_alert e (join newline detected.2)
       else mret tt
     else print "✅ No changes detected.");;
    print ("Job finished at: " +:+ now_end e).

(** *** What the functions compute, as functions of the page and the files

    These are used to state the properties below. *)

(** The rows, index labels and warnings that the tables from index [i] on
    contribute: those of each table whose [try] body succeeds, in order,
    and one warning for each table whose body raises. *)
Fixpoint table_rows (i : nat) (tables : list (list node * node)) : list (list cell) :=
  match tables with
  | [] => []
  | (previous_elements, table) :: rest =>
      match table_frame table (table_title i previous_elements) with
      | Ok df => df_rows df
      | Raise _ => []
      end ++ table_rows (S i) rest
  end.

Fixpoint table_index (i : nat) (tables : list (list node * node)) : list label :=
  match tables with
  | [] => []
  | (previous_elements, table) :: rest =>
      match table_frame table (table_title i previous_elements) with
      | Ok df => df_index df
      | Raise _ => []
      end ++ table_index (S i) rest
  end.

Fixpoint table_warnings (i : nat) (tables : list (list node * node)) : list string :=
  match tables with
  | [] => []
  | (previous_elements, table) :: rest =>
      match table_frame table (table_title i previous_elements) with
      | Ok _ => []
      | Raise e => [warning i e]
      end ++ table_warnings (S i) rest
  end.

(** The combined dataset of a page. *)
Definition combined (soup : list node) : DataFrame :=
  Frame (LStr <$> (columns ++ ["Level"]))
        (table_index 0 (find_all_tables soup))
        (table_rows 0 (find_all_tables soup)).

(** The state files after a completed save. *)
Definition saved_files (d : date) (df : DataFrame) (fs : gmap string string)
    : gmap string string :=
  <[LAST_HASH_FILE := fingerprint df]>
    (<[COMBINED_CSV_FILE := to_csv df]> (<[LAST_DATE_FILE := strftime_Ymd d]> fs)).

(** The state files after the first [k] of the six statements of a save:
    a file that was opened and not yet written is empty. *)
Definition cut_files (k : nat) (d : date) (df : DataFrame) (fs : gmap string string)
    : gmap string string :=
  match k with
  | 0 => fs
  | 1 => <[LAST_DATE_FILE := ""]> fs
  | 2 => <[LAST_DATE_FILE := strftime_Ymd d]> fs
  | 3 => <[COMBINED_CSV_FILE := ""]> (<[LAST_DATE_FILE := strftime_Ymd d]> fs)
  | 4 => <[COMBINED_CSV_FILE := to_csv df]> (<[LAST_DATE_FILE := strftime_Ymd d]> fs)
  | 5 => <[LAST_HASH_FILE := ""]>
           (<[COMBINED_CSV_FILE := to_csv df]> (<[LAST_DATE_FILE := strftime_Ymd d]> fs))
  | _ => saved_files d df fs
  end%nat.

(** The three state files hold the date [d] and the dataset [df]. *)
Definition reflects (fs : gmap string string) (d : date) (df : DataFrame) : Prop :=
  fs !! LAST_DATE_FILE = Some (strftime_Ymd d)
  ∧ fs !! COMBINED_CSV_FILE = Some (to_csv df)
  ∧ fs !! LAST_HASH_FILE = Some (fingerprint df).

End Script.

(** The lines every run prints first, and the line a completed run prints
    last. *)
Definition start_lines (e : env) : list string :=
  ["Job started at: " +:+ now_start e; "🔍 Checking OneModel roles page..."].

Definition finish_line (e : env) : string := "Job finished at: " +:+ now_end e.

Definition no_strftime : exn :=
  AttributeError "'NoneType' object has no attribute 'strftime'".

(** What [load_previous_state] returns, as a function of the files. *)
Definition stored_state (fs : gmap string string)
    : result (option date * option string) :=
  last_date ← match fs !! LAST_DATE_FILE with
              | Some s => d ← strptime_Ymd (strip s); Ok (Some d)
              | None => Ok None
              end;
  Ok (last_date, strip <$> fs !! LAST_HASH_FILE).

(** ** The label rule in the words of the specification

    The first element, going backwards, that is a heading-level or
    paragraph-level element with non-empty text; else the synthetic label. *)

Definition heading_or_paragraph_tags : list string :=
  ["h1"; "h2"; "h3"; "h4"; "h5"; "h6"; "p"].

Definition first_labelled (tags : list string) (previous_elements : list node)
    : option node :=
  head (filter (λ n, name_in tags n = true ∧ get_text_strip n ≠ "") previous_elements).

Definition label_by_rule (tags : list string) (i : nat)
    (previous_elements : list node) : string :=
  match first_labelled tags previous_elements with
  | Some n => get_text_strip n
  | None => "Untitled Table " +:+ pretty (i + 1)%nat
  end.

(** ** A sample page and stand-ins for the libraries

    Used by the examples that run the script on concrete input. *)

Module Sample.

Definition td (s : string) : node := Tag "td" [] [NavigableString s].
Definition tr (cells : list string) : node := Tag "tr" [] (td <$> cells).
Definition table (rows : list (list string)) : node := Tag "table" [] (tr <$> rows).

(** A reader for plain tables: one row per [tr], one text cell per child
    tag; a table without rows is not a table. *)
Definition read_html (t : node) : result DataFrame :=
  let row_of (r : node) :=
    match r with
    | Tag _ _ cells => (λ c, CStr (get_text_strip c)) <$> filter (λ c, is_tag c = true) cells
    | NavigableString _ => []
    end in
  let rows := row_of <$> filter (λ n, has_name "tr" n = true) (self_and_descendants t) in
  match rows with
  | [] => Raise (ValueError "No tables found")
  | r :: _ => Ok (Frame (range_index (length r)) (range_index (length rows)) rows)
  end.

Definition cell_str (c : cell) : string :=
  match c with
  | CStr s => s
  | CInt n => pretty n
  | CFloat bits => pretty bits
  end.

Definition to_csv (df : DataFrame) : string :=
  join newline ((λ row, join "," (cell_str <$> row)) <$> df_rows df).

Definition text_hash (s : string) : Z :=
  foldl (λ h c, ((h * 31 + Z.of_nat (nat_of_ascii c)) mod 2 ^ 64)%Z) 7%Z
        (list_ascii_of_string s).

Definition hash_pandas_object (df : DataFrame) : list Z :=
  (λ row, text_hash (join "," (cell_str <$> row))) <$> df_rows df.

(** The digest stand-in: sixteen bytes of a running checksum. *)
Definition md5 (data : list Byte.byte) : list Byte.byte :=
  let h := foldl (λ h b, ((h * 257 + Z.of_N (Byte.to_N b) + 1) mod 2 ^ 128)%Z) 0%Z data in
  (λ i, byte_of_Z (Z.shiftr h (8 * Z.of_nat i))) <$> seq 0 16.

Definition header : list string := ["Date"; "Loc"; "Title"; "Company"; "Location"; "Link"].
Definition row1 : list string := ["3/1/24"; "US"; "Analyst"; "Acme"; "Austin"; "a.example"].
Definition row2 : list string := ["3/5/24"; "UK"; "Director"; "Globex"; "London"; "g.example"].

(** A page with a date stamp and one table under a heading. *)
Definition page : list node :=
  [ Tag "p" [] [NavigableString "Last update: 3/7/24"];
    Tag "h2" [] [NavigableString "Senior"];
    table [header; row1; row2] ].

(** The same page without the stamp. *)
Definition page_without_stamp : list node :=
  [ Tag "h2" [] [NavigableString "Senior"];
    table [header; row1; row2] ].

(** Three tables, the second with five columns. *)
Definition page_three_tables : list node :=
  [ Tag "h2" [] [NavigableString "Senior"];
    table [header; row1];
    Tag "h2" [] [NavigableString "Broken"];
    table [["a"; "b"; "c"; "d"; "e"]; ["1"; "2"; "3"; "4"; "5"]];
    Tag "h2" [] [NavigableString "Junior"];
    table [header; row2] ].

(** No table, and a stamp that is not a date. *)
Definition page_bad_stamp : list node :=
  [ Tag "p" [] [NavigableString "Last update: 13/45/21"] ].

(** An error page: no table, no stamp. *)
Definition page_not_found : list node :=
  [ Tag "h1" [] [NavigableString "Not Found"] ].

(** The page after an update: a later stamp and one more row. *)
Definition row3 : list string := ["3/8/24"; "DE"; "Lead"; "Initech"; "Berlin"; "i.example"].

Definition page_updated : list node :=
  [ Tag "p" [] [NavigableString "Last update: 3/9/24"];
    Tag "h2" [] [NavigableString "Senior"];
    table [header; row1; row2; row3] ].

(** A table under an [h5] heading. *)
Definition page_h5 : list node :=
  [ Tag "h5" [] [NavigableString "Roles"];
    table [header; row1] ].

(** A table under a paragraph with an emphasised word. *)
Definition page_strong : list node :=
  [ Tag "p" [] [ NavigableString "Intro ";
                 Tag "strong" [] [NavigableString "Senior"];
                 NavigableString " roles" ];
    table [header; row1] ].

(** U+00A0, the no-break space of [&nbsp;], and U+2003, the em space, in
    UTF-8. *)
Definition nbsp : string := String (ascii_of_nat 194) (String (ascii_of_nat 160) "").
Definition em_space : string :=
  String (ascii_of_nat 226) (String (ascii_of_nat 128) (String (ascii_of_nat 131) "")).

(** A table under a heading and a paragraph that holds a no-break space
    only. *)
Definition page_nbsp : list node :=
  [ Tag "h2" [] [NavigableString "A"];
    Tag "p" [] [NavigableString nbsp];
    table [header; row1] ].

(** The parser stand-in knows these pages by their text. *)
Definition BeautifulSoup (html : string) : list node :=
  if decide (html = "page") then page
  else if decide (html = "page without stamp") then page_without_stamp
  else if decide (html = "page with three tables") then page_three_tables
  else if decide (html = "page with bad stamp") then page_bad_stamp
  else page_not_found.

Definition main : env → M unit :=
  main BeautifulSoup read_html to_csv hash_pandas_object md5.

Definition no_files : world := World ∅ [] [].

Definition fingerprint : DataFrame → string := fingerprint hash_pandas_object md5.

Definition interrupted_save : nat → option date → DataFrame → M unit :=
  interrupted_save to_csv hash_pandas_object md5.

Definition reflects : gmap string string → date → DataFrame → Prop :=
  reflects to_csv hash_pandas_object md5.

(** The stored state after a completed save of the sample page. *)
Definition old_date : date := Date 2024 3 7.
Definition old_df : DataFrame := combined read_html page.
Definition new_date : date := Date 2024 3 9.
Definition new_df : DataFrame := combined read_html page_updated.

Definition stored : world :=
  World (saved_files to_csv hash_pandas_object md5 old_date old_df ∅) [] [].

Definition env_for (html : string) : env :=
  Env "2024-03-08 09:00:00" "2024-03-08 09:00:02" (Ok (Response 200 html)) None.

End Sample.

(** * Properties *)

(** ** Text *)

Lemma is_plain_spec (c : ascii) :
  is_plain c = true ↔ (33 ≤ nat_of_ascii c ≤ 126)%nat.
Proof.
  unfold is_plain. rewrite andb_true_iff, !Nat.leb_le. done.
Qed.

Lemma is_plain_not_space (c : ascii) : is_plain c = true → py_isspace c = false.
Proof.
  intros [? ?]%is_plain_spec. unfold py_isspace.
  apply orb_false_iff. split; apply andb_false_iff; right; apply Nat.leb_gt; lia.
Qed.

(** A plain character is no byte of a longer white-space character. *)
Lemma is_plain_not_space2 (c x : ascii) :
  is_plain c = true → is_space2 c x = false ∧ is_space2 x c = false.
Proof.
  intros [? ?]%is_plain_spec. unfold is_space2. cbv zeta.
  rewrite (proj2 (Nat.eqb_neq (nat_of_ascii c) 194)) by lia.
  rewrite (proj2 (Nat.eqb_neq (nat_of_ascii c) 133)) by lia.
  rewrite (proj2 (Nat.eqb_neq (nat_of_ascii c) 160)) by lia.
  split; [done|]. apply andb_false_r.
Qed.

Lemma is_plain_not_space3 (c x y : ascii) :
  is_plain c = true → is_space3 c x y = false ∧ is_space3 x y c = false.
Proof.
  intros [? ?]%is_plain_spec. unfold is_space3. cbv zeta.
  rewrite (proj2 (Nat.eqb_neq (nat_of_ascii c) 225)) by lia.
  rewrite (proj2 (Nat.eqb_neq (nat_of_ascii c) 226)) by lia.
  rewrite (proj2 (Nat.eqb_neq (nat_of_ascii c) 227)) by lia.
  rewrite (proj2 (Nat.eqb_neq (nat_of_ascii c) 128)) by lia.
  rewrite (proj2 (Nat.eqb_neq (nat_of_ascii c) 168)) by lia.
  rewrite (proj2 (Nat.eqb_neq (nat_of_ascii c) 169)) by lia.
  rewrite (proj2 (Nat.eqb_neq (nat_of_ascii c) 175)) by lia.
  rewrite (proj2 (Nat.eqb_neq (nat_of_ascii c) 159)) by lia.
  rewrite (proj2 (Nat.leb_gt 128 (nat_of_ascii c))) by lia.
  split; [done|]. by rewrite !andb_false_r.
Qed.

(** Nothing is dropped in front of a character that is neither white space
    nor the start of a longer white-space character. *)
Lemma lstrip_with_head (sp2 : ascii → ascii → bool) (sp3 : ascii → ascii → ascii → bool)
    (c : ascii) (l : list ascii) :
  py_isspace c = false → (∀ x, sp2 c x = false) → (∀ x y, sp3 c x y = false) →
  lstrip_with sp2 sp3 (c :: l) = c :: l.
Proof.
  intros H1 H2 H3. cbn [lstrip_with]. rewrite H1.
  destruct l as [|x [|y l]]; rewrite ?H2, ?H3; done.
Qed.

Lemma lstrip_chars_id (l : list ascii) :
  Forall (λ c, is_plain c = true) l → lstrip_chars l = l.
Proof.
  destruct 1 as [|c l Hc _]; [done|]. apply lstrip_with_head.
  - by apply is_plain_not_space.
  - intros x. by destruct (is_plain_not_space2 c x Hc).
  - intros x y. by destruct (is_plain_not_space3 c x y Hc).
Qed.

Lemma rstrip_chars_id (l : list ascii) :
  Forall (λ c, is_plain c = true) l → rstrip_chars l = l.
Proof.
  intros H%Forall_rev. unfold rstrip_chars.
  rewrite <- (rev_involutive l) at 2. f_equal.
  destruct H as [|c l' Hc _]; [done|]. apply lstrip_with_head.
  - by apply is_plain_not_space.
  - intros x. by destruct (is_plain_not_space2 c x Hc).
  - intros x y. by destruct (is_plain_not_space3 c y x Hc).
Qed.

(** Stripping a text of plain characters changes nothing. *)
Lemma strip_id (s : string) :
  Forall (λ c, is_plain c = true) (list_ascii_of_string s) → strip s = s.
Proof.
  intros H. unfold strip.
  rewrite (lstrip_chars_id _ H), (rstrip_chars_id _ H).
  apply string_of_list_ascii_of_string.
Qed.

Lemma list_ascii_of_string_app (s t : string) :
  list_ascii_of_string (s +:+ t) = list_ascii_of_string s ++ list_ascii_of_string t.
Proof. induction s as [|c s IH]; simpl; [done|]. by rewrite <- IH. Qed.

Lemma hex_digit_plain (n : N) : (n < 16)%N → is_plain (hex_digit n) = true.
Proof.
  intros H.
  assert (n ∈ (N.of_nat <$> seq 0 16)) as Hin.
  { apply list_elem_of_fmap. exists (N.to_nat n). split; [lia|].
    apply list_elem_of_In, in_seq. lia. }
  simpl in Hin. set_unfold. by repeat destruct Hin as [->|Hin].
Qed.

Lemma hex_plain (bs : list Byte.byte) :
  Forall (λ c, is_plain c = true) (list_ascii_of_string (hex bs)).
Proof.
  induction bs as [|b bs IH]; simpl; [constructor|].
  pose proof (Byte.to_N_bounded b).
  repeat constructor; [apply hex_digit_plain..|done].
  - apply N.Div0.div_lt_upper_bound; lia.
  - apply N.mod_lt; lia.
Qed.

(** A hexadecimal digest read back from its file is the digest. *)
Lemma strip_hex (bs : list Byte.byte) : strip (hex bs) = hex bs.
Proof. apply strip_id, hex_plain. Qed.

(** ** Dates *)

(** Case analysis on an integer variable known to lie in a small range. *)
Ltac enum_from x k :=
  first
    [ assert (x = k) by lia; subst x
    | destruct (decide (x = k)) as [->|?];
      [ | let k' := eval compute in (k + 1)%Z in enum_from x k' ] ].

Lemma digit_char_plain (k : Z) :
  (0 ≤ k ≤ 9)%Z → is_plain (digit_char k) = true.
Proof. intros H. enum_from k 0%Z; reflexivity. Qed.

Lemma m_val_digit_char (k : Z) (r : string) :
  (0 ≤ k ≤ 9)%Z → m_val py_isdigit (String (digit_char k) r) = [(k, r)].
Proof. intros H. enum_from k 0%Z; reflexivity. Qed.

Lemma bind_digit {B} (k : Z → matcher B) (a : Z) (r : string) :
  (0 ≤ a ≤ 9)%Z → (m_val py_isdigit ≫= k) (String (digit_char a) r) = k a r.
Proof.
  intros H. unfold mbind, matcher_bind, m_bind.
  rewrite m_val_digit_char by done. simpl. apply app_nil_r.
Qed.

Lemma valid_date_bounds (d : date) :
  valid_date d = true →
  (1 ≤ year d ≤ 9999 ∧ 1 ≤ month d ≤ 12 ∧ 1 ≤ day d ≤ 31)%Z.
Proof.
  unfold valid_date, days_in_month. intros H.
  repeat (apply andb_prop in H as [H ?]).
  repeat case_match; lia.
Qed.

Lemma pad4_digits (y : Z) (t : string) :
  pad4 y +:+ t =
  String (digit_char (y / 1000 mod 10)) (String (digit_char (y / 100 mod 10))
    (String (digit_char (y / 10 mod 10)) (String (digit_char (y mod 10)) t))).
Proof. reflexivity. Qed.

Lemma re_Y_digits (a b c e : Z) (r : string) :
  (0 ≤ a ≤ 9)%Z → (0 ≤ b ≤ 9)%Z → (0 ≤ c ≤ 9)%Z → (0 ≤ e ≤ 9)%Z →
  re_Y (String (digit_char a) (String (digit_char b)
          (String (digit_char c) (String (digit_char e) r))))
  = [((1000 * a + 100 * b + 10 * c + e)%Z, r)].
Proof.
  intros. unfold re_Y. by rewrite !bind_digit.
Qed.

(** The format regex of [%Y-%m-%d] reads an ISO date back, as its first
    answer and with nothing left over. *)
Lemma parse_isoformat (d : date) :
  valid_date d = true →
  ∃ others,
    (y ← re_Y; m_lit "-";; m ← re_m; m_lit "-";; dd ← re_d; mret (y, m, dd))
      (date_isoformat d) = ((year d, month d, day d), "") :: others.
Proof.
  intros Hv. destruct (valid_date_bounds d Hv) as (Hy & Hm & Hd).
  destruct d as [y m dd]. cbn [year month day] in *.
  unfold date_isoformat. cbn [year month day].
  rewrite pad4_digits.
  unfold mbind at 1, matcher_bind at 1, m_bind at 1.
  rewrite re_Y_digits by (Z.div_mod_to_equations; lia).
  replace (1000 * (y / 1000 mod 10) + 100 * (y / 100 mod 10)
           + 10 * (y / 10 mod 10) + y mod 10)%Z with y
    by (Z.div_mod_to_equations; lia).
  cbn [flat_map fst snd]. clear Hv Hy.
  enum_from m 1%Z; enum_from dd 1%Z; eexists; vm_compute; reflexivity.
Qed.

(** The constructor returns a date exactly for the calendar dates. *)
Lemma make_date_ok (y m dd : Z) (d : date) :
  make_date y m dd = Ok d ↔ d = Date y m dd ∧ valid_date d = true.
Proof.
  unfold make_date, valid_date. split.
  - destruct ((1 <=? y) && (y <=? 9999))%Z eqn:Hy; [|done].
    destruct ((1 <=? m) && (m <=? 12))%Z eqn:Hm; [|done].
    destruct ((1 <=? dd) && (dd <=? days_in_month y m))%Z eqn:Hd; [|done].
    cbn [negb]. intros Hok. inversion Hok; subst. cbn [year month day].
    apply andb_true_iff in Hy as [-> ->]. apply andb_true_iff in Hm as [-> ->].
    by apply andb_true_iff in Hd as [-> ->].
  - intros [-> Hv]. cbn [year month day] in Hv.
    repeat (apply andb_true_iff in Hv as [Hv ?]).
    repeat match goal with
           | E : (_ <=? _)%Z = true |- _ => rewrite E; clear E
           end.
    done.
Qed.

(** What [save_current_state] writes as the date, [load_previous_state]
    reads back as the same date. *)
Lemma strptime_strftime (d : date) :
  valid_date d = true → strptime_Ymd (strftime_Ymd d) = Ok d.
Proof.
  intros Hv. unfold strptime_Ymd, strftime_Ymd.
  destruct (parse_isoformat d Hv) as [others ->].
  unfold strptime_finish, string_is_empty.
  apply make_date_ok. by destruct d.
Qed.

Lemma isoformat_plain (d : date) :
  valid_date d = true →
  Forall (λ c, is_plain c = true) (list_ascii_of_string (date_isoformat d)).
Proof.
  intros Hv. destruct (valid_date_bounds d Hv) as (Hy & Hm & Hd).
  unfold date_isoformat. rewrite pad4_digits.
  cbn [list_ascii_of_string].
  repeat first
    [ apply Forall_cons; split;
      [ first [ apply digit_char_plain; Z.div_mod_to_equations; lia
              | reflexivity ] | ]
    | apply Forall_nil_2
    | progress cbn [list_ascii_of_string String.append pad2] ].
Qed.

Lemma strip_isoformat (d : date) :
  valid_date d = true → strip (date_isoformat d) = date_isoformat d.
Proof. intros. by apply strip_id, isoformat_plain. Qed.

Lemma make_date_valid (y m dd : Z) (d : date) :
  make_date y m dd = Ok d → valid_date d = true.
Proof. by intros [_ ?]%make_date_ok. Qed.

Lemma strptime_finish_valid found s fmt (d : date) :
  strptime_finish found s fmt = Ok d → valid_date d = true.
Proof.
  unfold strptime_finish. destruct found as [|[[[y m] dd] rest] ?]; [done|].
  case_match; [apply make_date_valid|done].
Qed.

(** A date that [fetch_update_date] returns is a calendar date. *)
Lemma fetch_update_date_valid (soup : list node) (d : date) :
  fetch_update_date soup = Ok (Some d) → valid_date d = true.
Proof.
  unfold fetch_update_date. destruct (re_search _ _) as [g|]; [|done].
  unfold strptime_mdy. intros H.
  destruct (strptime_finish _ _ _) as [d'|] eqn:E; [|done].
  cbn in H. inversion H; subst. by eapply strptime_finish_valid.
Qed.

Example strptime_mdy_ex1 : strptime_mdy "3/7/24" = Ok (Date 2024 3 7).
Proof. reflexivity. Qed.
Example strptime_mdy_ex2 : strptime_mdy "12/31/69" = Ok (Date 1969 12 31).
Proof. reflexivity. Qed.
Example strptime_mdy_ex3 : ∃ m, strptime_mdy "13/45/21" = Raise (ValueError m).
Proof. eexists. reflexivity. Qed.
Example strptime_mdy_ex4 : strptime_mdy "2/30/24" = Raise (ValueError "day is out of range for month").
Proof. reflexivity. Qed.
Example strptime_Ymd_ex1 : strptime_Ymd "2024-03-07" = Ok (Date 2024 3 7).
Proof. reflexivity. Qed.
Example strptime_Ymd_ex2 : ∃ m, strptime_Ymd "" = Raise (ValueError m).
Proof. eexists. reflexivity. Qed.
Example search_ex1 :
  re_search last_update_re "Roles. Last update:  1/2/2024 more" = Some "1/2/20".
Proof. reflexivity. Qed.
Example strip_ex1 : strip "  ab c
" = "ab c".
Proof. reflexivity. Qed.
Example strip_ex2 : strip (Sample.nbsp +:+ " A b" +:+ Sample.em_space +:+ Sample.nbsp) = "A b".
Proof. reflexivity. Qed.
Example strip_ex3 : strip Sample.nbsp = "".
Proof. reflexivity. Qed.
Example search_ex2 :
  re_search last_update_re ("Last update:" +:+ Sample.nbsp +:+ " 1/2/24") = Some "1/2/24".
Proof. reflexivity. Qed.
Example strptime_Ymd_ex3 :
  strptime_Ymd "0000-01-01" = Raise (ValueError "year 0 is out of range").
Proof. reflexivity. Qed.
(** A paragraph that holds a no-break space only has no text: the label
    is the heading before it. *)
Example table_title_ex1 :
  ∃ prev t, find_all_tables Sample.page_nbsp = [(prev, t)] ∧ table_title 0 prev = "A".
Proof. eexists _, _. split; vm_compute; reflexivity. Qed.

(** ** The steps of a run *)

Lemma add_stdout_app (w : world) (l1 l2 : list string) :
  add_stdout (add_stdout w l1) l2 = add_stdout w (l1 ++ l2).
Proof. unfold add_stdout. cbn. by rewrite app_assoc. Qed.

Lemma add_stdout_nil (w : world) : add_stdout w [] = w.
Proof. destruct w. unfold add_stdout. cbn. by rewrite app_nil_r. Qed.

(** Two worlds built by appending to the console are equal. *)
Ltac world_eq :=
  unfold add_stdout; cbn [files stdout smtp_log];
  rewrite <- ?app_assoc; reflexivity.

Lemma bind_run {A B} (m : M A) (f : A → M B) (w : world) :
  (m ≫= f) w = match m w with
               | (Ok a, w') => f a w'
               | (Raise e, w') => (Raise e, w')
               end.
Proof. reflexivity. Qed.

Lemma load_previous_state_run (w : world) :
  load_previous_state w = (stored_state (files w), w).
Proof.
  unfold load_previous_state, stored_state, path_exists, read_file, lift.
  cbv [mbind M_bind mret M_ret result_bind].
  destruct (files w !! LAST_DATE_FILE) as [s|] eqn:Ed;
    destruct (files w !! LAST_HASH_FILE) as [h|] eqn:Eh;
    repeat first
      [ rewrite bool_decide_eq_true_2 by eauto
      | rewrite bool_decide_eq_false_2 by (by intros [??])
      | rewrite Ed | rewrite Eh
      | progress cbv beta iota
      | destruct (strptime_Ymd (strip s)) as [d|x] ];
    reflexivity.
Qed.

Section Properties.

Variable BeautifulSoup : string → list node.
Variable read_html : node → result DataFrame.
Variable to_csv : DataFrame → string.
Variable hash_pandas_object : DataFrame → list Z.
Variable md5 : list Byte.byte → list Byte.byte.

Local Abbreviation fingerprint := (fingerprint hash_pandas_object md5).
Local Abbreviation table_frame := (table_frame read_html).
Local Abbreviation parse_table := (parse_table read_html).
Local Abbreviation extract_loop := (extract_loop read_html).
Local Abbreviation extract_and_combine_tables := (extract_and_combine_tables read_html).
Local Abbreviation table_rows := (table_rows read_html).
Local Abbreviation table_index := (table_index read_html).
Local Abbreviation table_warnings := (table_warnings read_html).
Local Abbreviation combined := (combined read_html).
Local Abbreviation save_steps := (save_steps to_csv hash_pandas_object md5).
Local Abbreviation save_current_state := (save_current_state to_csv hash_pandas_object md5).
Local Abbreviation interrupted_save := (interrupted_save to_csv hash_pandas_object md5).
Local Abbreviation save_failing_at := (save_failing_at to_csv hash_pandas_object md5).
Local Abbreviation cut_files := (cut_files to_csv hash_pandas_object md5).
Local Abbreviation saved_files := (saved_files to_csv hash_pandas_object md5).
Local Abbreviation reflects := (reflects to_csv hash_pandas_object md5).
Local Abbreviation main := (main BeautifulSoup read_html to_csv hash_pandas_object md5).

Lemma extract_loop_run (i : nat) (tables : list (list node * node))
    (data : DataFrame) (w : world) :
  extract_loop i tables data w =
  (Ok (Frame (df_columns data) (df_index data ++ table_index i tables)
             (df_rows data ++ table_rows i tables)),
   add_stdout w (table_warnings i tables)).
Proof.
  revert i data w. induction tables as [|[prev t] rest IH]; intros i data w.
  - cbn. rewrite !app_nil_r, add_stdout_nil. by destruct data.
  - cbn [extract_loop table_rows table_index
         table_warnings].
    unfold parse_table.
    destruct (table_frame t (table_title i prev)) as [df|e]; cbn.
    + rewrite IH. cbn. by rewrite <- !app_assoc.
    + rewrite bind_run. cbn. rewrite IH, add_stdout_app. done.
Qed.

Lemma extract_run (soup : list node) (w : world) :
  extract_and_combine_tables soup w =
  (Ok (combined soup), add_stdout w (table_warnings 0 (find_all_tables soup))).
Proof. unfold extract_and_combine_tables. by rewrite extract_loop_run. Qed.

Lemma open_write (path s : string) (k : M unit) (w : world) :
  (open_w path;; write path s;; k) w =
  k (World (<[path := s]> (files w)) (stdout w) (smtp_log w)).
Proof.
  unfold open_w, write. cbv [mbind M_bind]. cbn [files stdout smtp_log].
  by rewrite lookup_insert_eq, insert_insert_eq.
Qed.

Lemma save_current_state_run (d : date) (df : DataFrame) (w : world) :
  save_current_state (Some d) df w =
  (Ok tt, World (saved_files d df (files w)) (stdout w) (smtp_log w)).
Proof.
  unfold save_current_state, save_steps, run_steps.
  cbn [foldr]. rewrite !open_write. done.
Qed.

Lemma save_current_state_no_date (df : DataFrame) (w : world) :
  save_current_state None df w =
  (Raise no_strftime,
   World (<[LAST_DATE_FILE := ""]> (files w)) (stdout w) (smtp_log w)).
Proof. reflexivity. Qed.

(** [main], step by step, as a function of what the run receives. *)
Lemma main_run (e : env) (w : world) :
  main e w =
  let w0 := add_stdout w (start_lines e) in
  match http e with
  | Raise x => (Raise x, w0)
  | Ok response =>
      let soup := BeautifulSoup (text response) in
      match fetch_update_date soup with
      | Raise x => (Raise x, w0)
      | Ok latest =>
          let df := combined soup in
          let w1 := add_stdout w0 (table_warnings 0 (find_all_tables soup)) in
          if df_empty df then (Ok tt, add_stdout w1 ["❌ No tables found. Aborting."])
          else
            match stored_state (files w) with
            | Raise x => (Raise x, w1)
            | Ok prev =>
                let detected := detect_changes latest (fingerprint df) prev.1 prev.2 in
                if detected.1 then
                  let w2 := add_stdout w1 ["✅ Changes detected! Saving and notifying..."] in
                  match latest with
                  | None =>
                      (Raise no_strftime,
                       World (<[LAST_DATE_FILE := ""]> (files w)) (stdout w2) (smtp_log w))
                  | Some d =>
                      let w3 := World (saved_files d df (files w)) (stdout w2)
                                      (smtp_log w ++ [join newline detected.2]) in
                      match smtp_error e with
                      | Some x => (Raise x, w3)
                      | None => (Ok tt, add_stdout w3 ["📧 Email alert sent!"; finish_line e])
                      end
                  end
                else (Ok tt, add_stdout w1 ["✅ No changes detected."; finish_line e])
            end
      end
  end.
Proof.
  unfold main, print, lift, start_lines, finish_line.
  do 3 (rewrite bind_run; cbv beta iota zeta).
  rewrite add_stdout_app. cbn [app].
  destruct (http e) as [response|x]; [|done].
  rewrite bind_run; cbv beta iota.
  destruct (fetch_update_date _) as [latest|x]; [|done].
  rewrite bind_run, extract_run.
  destruct (df_empty _); [done|].
  rewrite bind_run, load_previous_state_run. cbn [files add_stdout].
  destruct (stored_state (files w)) as [prev|x]; [|done].
  rewrite bind_run.
  destruct (detect_changes _ _ _ _).1.
  - do 2 (rewrite bind_run; cbv beta iota). destruct latest as [d|].
    + rewrite save_current_state_run. unfold EMAIL_NOTIFICATION, send_email_alert.
      rewrite bind_run; cbv beta iota. cbn [files stdout smtp_log add_stdout].
      destruct (smtp_error e) as [x|]; [done|].
      unfold print, add_stdout. cbn [files stdout smtp_log]. by rewrite <- !app_assoc.
    + rewrite save_current_state_no_date. done.
  - unfold add_stdout. cbn [files stdout smtp_log].
    by rewrite <- !app_assoc.
Qed.

(** ** State store *)

Lemma state_files_distinct :
  LAST_DATE_FILE ≠ COMBINED_CSV_FILE ∧ LAST_DATE_FILE ≠ LAST_HASH_FILE
  ∧ COMBINED_CSV_FILE ≠ LAST_HASH_FILE.
Proof. by repeat split. Qed.

Lemma saved_files_reflects (d : date) (df : DataFrame) (fs : gmap string string) :
  reflects (saved_files d df fs) d df.
Proof.
  destruct state_files_distinct as (? & ? & ?).
  unfold reflects, saved_files.
  repeat split; by simplify_map_eq.
Qed.

(** After a completed save, loading returns what was saved. *)
Lemma stored_state_saved (d : date) (df : DataFrame) (fs : gmap string string) :
  valid_date d = true →
  stored_state (saved_files d df fs) = Ok (Some d, Some (fingerprint df)).
Proof.
  intros Hv. destruct (saved_files_reflects d df fs) as (Hd & _ & Hh).
  unfold stored_state. rewrite Hd, Hh. unfold strftime_Ymd.
  rewrite strip_isoformat by done.
  fold (strftime_Ymd d). rewrite strptime_strftime by done.
  cbn. unfold fingerprint. by rewrite strip_hex.
Qed.

Lemma detect_changes_same (d : option date) (h : string) (prev_hash : option string) :
  prev_hash = Some h →
  detect_changes d h d prev_hash = (false, []).
Proof.
  intros ->. unfold detect_changes.
  destruct d as [d|]; rewrite ?bool_decide_eq_false_2 by naive_solver; done.
Qed.

(** ** The claims about change detection and the state store *)

(** C1.  The change detector marks a change exactly when the current update
    date is present and differs from the stored one, or the current
    fingerprint differs from the stored one (an absent stored value
    differs from everything).  The two checks are independent: each adds its
    own message, the date message first, and when neither fires the result
    is no change and no message. *)
Theorem detect_changes_spec (current_date : option date) (current_fp : string)
    (stored_date : option date) (stored_fp : option string) :
  ((detect_changes current_date current_fp stored_date stored_fp).1 = true
     ↔ (∃ d, current_date = Some d ∧ stored_date ≠ Some d)
       ∨ stored_fp ≠ Some current_fp)
  ∧ (detect_changes current_date current_fp stored_date stored_fp).2
    = match current_date with
      | Some d => if decide (stored_date ≠ Some d)
                  then [date_message stored_date d] else []
      | None => []
      end
      ++ (if decide (stored_fp ≠ Some current_fp) then [content_message] else [])
  ∧ ((¬ ∃ d, current_date = Some d ∧ stored_date ≠ Some d)
     ∧ stored_fp = Some current_fp
     → detect_changes current_date current_fp stored_date stored_fp = (false, [])).
Proof.
  unfold detect_changes.
  destruct current_date as [d|];
    repeat case_bool_decide; repeat case_decide; try congruence;
    cbn [fst snd app]; (split; [|split]); try done;
    try (split; [intros _|done]); eauto.
  all: try (intros [[d' [? ?]] | ?]; congruence).
  all: try (intros [Hno ?]; try congruence; exfalso; apply Hno; eauto).
  all: split; [done|]; intros [[d' [Hd' ?]] | ?]; congruence.
Qed.

(** C2, at its failing input.  On a first run (no date file, no fingerprint
    file) over a page with a non-empty dataset and no date stamp, the change
    is detected but the save stops at the date: the date file is left empty
    and neither the dataset file nor the fingerprint file is written. *)
Theorem first_run_without_stamp (e : env) (w : world) (r : response) :
  http e = Ok r →
  fetch_update_date (BeautifulSoup (text r)) = Ok None →
  df_empty (combined (BeautifulSoup (text r))) = false →
  files w !! LAST_DATE_FILE = None →
  files w !! LAST_HASH_FILE = None →
  ∃ w', main e w = (Raise no_strftime, w')
    ∧ files w' !! LAST_DATE_FILE = Some ""
    ∧ files w' !! COMBINED_CSV_FILE = files w !! COMBINED_CSV_FILE
    ∧ files w' !! LAST_HASH_FILE = None
    ∧ smtp_log w' = smtp_log w.
Proof.
  intros Hhttp Hdate Hdf Hnodate Hnohash.
  destruct state_files_distinct as (? & ? & ?).
  rewrite main_run, Hhttp. cbv zeta. rewrite Hdate, Hdf.
  unfold stored_state. rewrite Hnodate, Hnohash.
  cbn [mbind result_bind fmap option_fmap option_map fst snd].
  unfold detect_changes.
  rewrite (bool_decide_eq_true_2 (Some _ ≠ None)) by done.
  cbn [fst]. eexists. split; [reflexivity|].
  cbn [files smtp_log]. repeat split; by simplify_map_eq.
Qed.

(** C3.  When a change is detected on a page without a date stamp, the save
    is entered with no date: the date file is opened, hence emptied, the
    formatting of the date raises, and the run ends with that error before
    the dataset file, the fingerprint file or any notification. *)
Theorem save_without_date_aborts (e : env) (w : world) (r : response)
    (prev : option date * option string) :
  http e = Ok r →
  fetch_update_date (BeautifulSoup (text r)) = Ok None →
  df_empty (combined (BeautifulSoup (text r))) = false →
  stored_state (files w) = Ok prev →
  (detect_changes None (fingerprint (combined (BeautifulSoup (text r)))) prev.1 prev.2).1
    = true →
  save_current_state None (combined (BeautifulSoup (text r))) w
    = (Raise no_strftime,
       World (<[LAST_DATE_FILE := ""]> (files w)) (stdout w) (smtp_log w))
  ∧ main e w
    = (Raise no_strftime,
       World (<[LAST_DATE_FILE := ""]> (files w))
             (stdout w ++ start_lines e
                ++ table_warnings 0 (find_all_tables (BeautifulSoup (text r)))
                ++ ["✅ Changes detected! Saving and notifying..."])
             (smtp_log w)).
Proof.
  intros Hhttp Hdate Hdf Hprev Hdet. split; [apply save_current_state_no_date|].
  rewrite main_run, Hhttp. cbv zeta. rewrite Hdate, Hdf, Hprev, Hdet.
  world_eq.
Qed.

Lemma strftime_Ymd_inj (d d0 : date) :
  valid_date d = true → valid_date d0 = true →
  strftime_Ymd d = strftime_Ymd d0 → d = d0.
Proof.
  intros Hv Hv0 Heq.
  assert (Ok d = Ok d0) as Hok
    by (rewrite <- (strptime_strftime d), <- (strptime_strftime d0), Heq; done).
  by inversion Hok.
Qed.

Lemma strftime_Ymd_nonempty (d : date) : strftime_Ymd d ≠ "".
Proof.
  unfold strftime_Ymd, date_isoformat. rewrite pad4_digits. discriminate.
Qed.

(** The statements of a save that were run decide the files: stopping
    after [k] of them and failing at the next give the same files. *)
Lemma save_steps_cut (k : nat) (d : date) (df : DataFrame) (w : world) :
  interrupted_save k (Some d) df w
  = (Ok tt, World (cut_files k d df (files w)) (stdout w) (smtp_log w))
  ∧ ∀ x, save_failing_at k x (Some d) df w
         = (Raise x, World (cut_files k d df (files w)) (stdout w) (smtp_log w)).
Proof.
  unfold interrupted_save, save_failing_at, save_steps, run_steps, cut_files, saved_files.
  destruct k as [|[|[|[|[|[|k]]]]]]; cbn [take app foldr]; rewrite ?take_nil;
    cbn [app foldr]; (split; [|intros x]);
    rewrite ?open_write; cbn [files stdout smtp_log];
    try reflexivity; by destruct w.
Qed.

(** Over a stored state with another date and another fingerprint, a save
    that did not run to its end leaves the state of neither observation. *)
Lemma cut_files_mixed (k : nat) (d d0 : date) (df df0 : DataFrame)
    (fs : gmap string string) :
  (1 ≤ k ≤ 5)%nat →
  valid_date d = true → valid_date d0 = true → d ≠ d0 →
  fingerprint df ≠ fingerprint df0 → fingerprint df ≠ "" →
  reflects fs d0 df0 →
  ¬ reflects (cut_files k d df fs) d0 df0 ∧ ¬ reflects (cut_files k d df fs) d df.
Proof.
  intros Hk Hv Hv0 Hne Hfp Hfp' (Hd0 & Hc0 & Hh0).
  destruct state_files_distinct as (? & ? & ?).
  assert (strftime_Ymd d ≠ strftime_Ymd d0) as Hs
    by (intros Heq; by apply Hne, strftime_Ymd_inj).
  pose proof (strftime_Ymd_nonempty d) as Hn.
  pose proof (strftime_Ymd_nonempty d0) as Hn0.
  destruct k as [|[|[|[|[|[|k]]]]]]; try lia; unfold cut_files, reflects;
    split; intros (Hd & Hc & Hh);
    rewrite ?lookup_insert_eq, ?lookup_insert_ne, ?lookup_insert_eq in Hd by done;
    rewrite ?lookup_insert_eq, ?lookup_insert_ne, ?lookup_insert_eq in Hh by done;
    congruence.
Qed.

(** C4, as amended.  A run that ends normally, or that got as far as the
    notification, leaves the state files either untouched or all three
    written from its date and dataset.  The save is six statements in
    sequence (open and write the date file, the dataset file, the
    fingerprint file): stopped after the first [k] of them, or with the
    next one raising, it leaves the files of [cut_files]: what was written
    is new, a file opened and not yet written is empty, the rest is as it
    was.  Over a stored state with another date and another fingerprint,
    each of these partial states, for [k] from 1 to 5, is the state of
    neither the old nor the new observation. *)
Theorem state_files_after_run (e : env) (w : world) (k : nat) (x : exn)
    (d d0 : date) (df df0 : DataFrame) :
  ((main e w).1 = Ok tt ∨ smtp_log (main e w).2 ≠ smtp_log w →
   files (main e w).2 = files w
   ∨ ∃ r d', http e = Ok r
       ∧ fetch_update_date (BeautifulSoup (text r)) = Ok (Some d')
       ∧ files (main e w).2 = saved_files d' (combined (BeautifulSoup (text r))) (files w)
       ∧ reflects (files (main e w).2) d' (combined (BeautifulSoup (text r))))
  ∧ interrupted_save k (Some d) df w
    = (Ok tt, World (cut_files k d df (files w)) (stdout w) (smtp_log w))
  ∧ save_failing_at k x (Some d) df w
    = (Raise x, World (cut_files k d df (files w)) (stdout w) (smtp_log w))
  ∧ ((1 ≤ k ≤ 5)%nat →
     valid_date d = true → valid_date d0 = true → d ≠ d0 →
     fingerprint df ≠ fingerprint df0 → fingerprint df ≠ "" →
     reflects (files w) d0 df0 →
     ¬ reflects (cut_files k d df (files w)) d0 df0
     ∧ ¬ reflects (cut_files k d df (files w)) d df).
Proof.
  split; [|split; [apply save_steps_cut|split; [apply save_steps_cut|apply cut_files_mixed]]].
  rewrite main_run. cbv zeta.
  destruct (http e) as [r|y] eqn:Hhttp; [|by left].
  destruct (fetch_update_date _) as [latest|y] eqn:Hdate; [|by left].
  destruct (df_empty _); [by left|].
  destruct (stored_state _) as [prev|y]; [|by left].
  destruct (detect_changes _ _ _ _).1; [|by left].
  destruct latest as [d'|].
  - intros _. right. exists r, d'.
    destruct (smtp_error e); cbn [snd files add_stdout];
      eauto using saved_files_reflects.
  - cbn [fst snd smtp_log]. intros [Hok|Hlog]; [discriminate Hok|done].
Qed.

(** C5.  Two runs in a row over the same page: when the first run ends
    normally on a non-empty dataset (so the stored state is what it
    observed), the second run finds no change: it prints so, writes no file
    and sends nothing. *)
Theorem second_run_detects_nothing (e1 e2 : env) (w w1 : world) (r1 r2 : response) :
  http e1 = Ok r1 →
  http e2 = Ok r2 →
  text r2 = text r1 →
  df_empty (combined (BeautifulSoup (text r1))) = false →
  main e1 w = (Ok tt, w1) →
  main e2 w1
  = (Ok tt,
     World (files w1)
           (stdout w1 ++ start_lines e2
              ++ table_warnings 0 (find_all_tables (BeautifulSoup (text r1)))
              ++ ["✅ No changes detected."; finish_line e2])
           (smtp_log w1)).
Proof.
  intros H1 H2 Htext Hdf Hrun.
  rewrite main_run, H1 in Hrun. cbv zeta in Hrun. rewrite Hdf in Hrun.
  rewrite main_run, H2, Htext. cbv zeta. rewrite Hdf.
  destruct (fetch_update_date _) as [latest|x] eqn:Hdate; [|done].
  destruct (stored_state (files w)) as [prev|x] eqn:Hprev; [|done].
  destruct (detect_changes latest _ prev.1 prev.2).1 eqn:Hdet.
  - destruct latest as [d|]; [|done].
    destruct (smtp_error e1); [done|]. inversion Hrun; subst w1; clear Hrun.
    cbn [files add_stdout stdout smtp_log].
    rewrite stored_state_saved by eauto using fetch_update_date_valid.
    cbn [fst snd]. rewrite detect_changes_same by done. cbn [fst].
    world_eq.
  - inversion Hrun; subst w1; clear Hrun.
    cbn [files add_stdout stdout smtp_log]. rewrite Hprev, Hdet.
    world_eq.
Qed.

(** ** The claims about extraction *)

Lemma table_warnings_lookup (i k : nat) (tables : list (list node * node))
    (prev : list node) (t : node) (e : exn) :
  tables !! k = Some (prev, t) →
  table_frame t (table_title (i + k) prev) = Raise e →
  warning (i + k) e ∈ table_warnings i tables.
Proof.
  revert i k. induction tables as [|[p t'] rest IH]; intros i k Hk He; [done|].
  cbn [table_warnings]. destruct k as [|k]; cbn in Hk.
  - inversion Hk; subst. rewrite Nat.add_0_r in He. rewrite He.
    rewrite Nat.add_0_r. set_solver.
  - apply elem_of_app. right.
    replace (i + S k)%nat with (S i + k)%nat in * by lia. by apply IH.
Qed.

(** C7.  Extraction never raises.  It returns the rows of the tables whose
    [try] body succeeds, in document order, and prints one warning for each
    table whose body raises; that table adds no row.  So a page with three
    tables of which the second fails gives exactly the rows of the first
    and the third, and one warning, for table 2. *)
Theorem malformed_table_is_skipped (soup : list node) (w : world) :
  extract_and_combine_tables soup w
  = (Ok (combined soup), add_stdout w (table_warnings 0 (find_all_tables soup)))
  ∧ (∀ i prev t e,
       find_all_tables soup !! i = Some (prev, t) →
       table_frame t (table_title i prev) = Raise e →
       warning i e ∈ table_warnings 0 (find_all_tables soup))
  ∧ (∀ p1 t1 p2 t2 p3 t3 f1 e f3,
       find_all_tables soup = [(p1, t1); (p2, t2); (p3, t3)] →
       table_frame t1 (table_title 0 p1) = Ok f1 →
       table_frame t2 (table_title 1 p2) = Raise e →
       table_frame t3 (table_title 2 p3) = Ok f3 →
       df_rows (combined soup) = df_rows f1 ++ df_rows f3
       ∧ table_warnings 0 (find_all_tables soup) = [warning 1 e]).
Proof.
  split; [apply extract_run|split].
  - intros i prev t e Hi He. by apply (table_warnings_lookup 0 i _ prev t).
  - intros p1 t1 p2 t2 p3 t3 f1 e f3 Htables H1 H2 H3.
    unfold combined. rewrite Htables.
    cbn [table_rows table_warnings df_rows].
    rewrite H1, H2, H3. by rewrite !app_nil_r.
Qed.

(** C8, as amended.  When the combined dataset of the page is empty, the run
    writes no file and opens no SMTP session; it ends normally, after the
    line that says so, whenever the date extraction that runs before it
    returns. *)
Theorem empty_page_writes_nothing (e : env) (w : world) (r : response) :
  http e = Ok r →
  df_empty (combined (BeautifulSoup (text r))) = true →
  files (main e w).2 = files w
  ∧ smtp_log (main e w).2 = smtp_log w
  ∧ ∀ latest,
      fetch_update_date (BeautifulSoup (text r)) = Ok latest →
      main e w
      = (Ok tt,
         add_stdout w (start_lines e
                       ++ table_warnings 0 (find_all_tables (BeautifulSoup (text r)))
                       ++ ["❌ No tables found. Aborting."])).
Proof.
  intros Hhttp Hdf. rewrite main_run, Hhttp. cbv zeta. rewrite Hdf.
  destruct (fetch_update_date _) as [latest|x]; repeat split; try done.
  intros ? _. f_equal. world_eq.
Qed.

(** C10.  Only a failure of the transport ends the run at the fetch.  The
    status code of a response is never read: the run over a response is the
    run over the same body with any other status.  A body without tables
    and without a date stamp, such as an error page, ends in the quiet
    "no tables" outcome. *)
Theorem status_code_is_ignored (e : env) (w : world) :
  (∀ x, http e = Raise x → main e w = (Raise x, add_stdout w (start_lines e)))
  ∧ (∀ r status,
       http e = Ok r →
       main e w
       = main (Env (now_start e) (now_end e) (Ok (Response status (text r)))
                   (smtp_error e)) w)
  ∧ (∀ r latest,
       http e = Ok r →
       find_all_tables (BeautifulSoup (text r)) = [] →
       fetch_update_date (BeautifulSoup (text r)) = Ok latest →
       main e w = (Ok tt, add_stdout w (start_lines e ++ ["❌ No tables found. Aborting."]))).
Proof.
  repeat split.
  - intros x Hx. by rewrite main_run, Hx.
  - intros r status Hr. rewrite !main_run, Hr. done.
  - intros r latest Hr Htables Hdate. rewrite main_run, Hr. cbv zeta.
    rewrite Hdate. unfold combined. rewrite Htables.
    cbn [table_rows table_index table_warnings].
    unfold df_empty. cbn [df_rows df_columns].
    rewrite (bool_decide_eq_true_2 ([] = [])) by done.
    rewrite orb_true_r. f_equal. world_eq.
Qed.

(** ** The claim about labels *)

Lemma string_is_empty_spec (s : string) : string_is_empty s = true ↔ s = "".
Proof. by destruct s. Qed.

Lemma nearest_title_rule (prev : list node) (default : string) :
  nearest_title (find_all_previous prev) default
  = match first_labelled title_tags prev with
    | Some n => get_text_strip n
    | None => default
    end.
Proof.
  unfold first_labelled, find_all_previous.
  induction prev as [|n prev IH]; [done|].
  rewrite !filter_cons. cbv beta.
  destruct (decide (is_tag n = true)) as [Htag|Htag].
  - cbn [nearest_title].
    destruct (name_in title_tags n) eqn:Hname.
    + destruct (string_is_empty (get_text_strip n)) eqn:Hempty.
      * apply string_is_empty_spec in Hempty.
        rewrite decide_False by (by intros [_ ?]). done.
      * rewrite decide_True; [done|].
        split; [done|]. intros ?%string_is_empty_spec. congruence.
    + rewrite decide_False by (by intros [? _]). done.
  - rewrite decide_False; [done|].
    intros [Hname _]. destruct n; [done|]. discriminate Hname.
Qed.

Lemma tables_from_lookup (before rest : list node) (i : nat)
    (prev : list node) (t : node) :
  tables_from before rest !! i = Some (prev, t) →
  (∃ k, rest !! k = Some t ∧ prev = reverse (take k rest) ++ before)
  ∧ filter (λ n, has_name "table" n = true) rest !! i = Some t.
Proof.
  revert before i. induction rest as [|n rest IH]; intros before i Hi; [done|].
  cbn [tables_from] in Hi. rewrite filter_cons. cbv beta.
  assert (∀ j, tables_from (n :: before) rest !! j = Some (prev, t) →
            (∃ k, (n :: rest) !! k = Some t
                  ∧ prev = reverse (take k (n :: rest)) ++ before)
            ∧ filter (λ n, has_name "table" n = true) rest !! j = Some t) as Htail.
  { intros j Hj. destruct (IH _ _ Hj) as [(k & Hk & ->) Hf]. split; [|done].
    exists (S k). split; [done|]. cbn [take]. rewrite reverse_cons.
    by rewrite <- app_assoc. }
  destruct (has_name "table" n) eqn:Hn.
  - rewrite decide_True by done. destruct i as [|i]; cbn in Hi.
    + inversion Hi; subst. split; [|done]. by exists 0%nat.
    + by apply Htail.
  - rewrite decide_False by done. by apply Htail.
Qed.

Lemma table_frame_level (t : node) (title : string) (df : DataFrame) :
  table_frame t title = Ok df →
  Forall (λ row, last row = Some (CStr title)) (df_rows df).
Proof.
  unfold table_frame.
  destruct (read_html t) as [df0|]; [|done]. cbn [mbind result_bind].
  destruct (set_columns df0 columns) as [df1|]; [|done]. cbn [mbind result_bind].
  destruct (drop_index_0 df1) as [df2|]; [|done]. cbn [mbind result_bind].
  intros H. inversion H; subst. cbn [add_column df_rows reset_index].
  apply Forall_fmap, Forall_forall. intros row _. cbn. by rewrite last_snoc.
Qed.

(** C9, as amended.  For the table at index [i] of the page, in document
    order, the label is the stripped text of the first element, going
    backwards from the table through everything before it, that is one of
    the tags [h1], [h2], [h3], [h4], [strong] and [p] and has non-empty
    text; without such an element it is "Untitled Table" followed by
    [i + 1].  Every row the table contributes carries that label as its
    last cell. *)
Theorem table_title_rule (soup : list node) (i : nat) (prev : list node) (t : node) :
  find_all_tables soup !! i = Some (prev, t) →
  (∃ k, descendants soup !! k = Some t ∧ prev = reverse (take k (descendants soup)))
  ∧ filter (λ n, has_name "table" n = true) (descendants soup) !! i = Some t
  ∧ table_title i prev = label_by_rule title_tags i prev
  ∧ ∀ df, table_frame t (table_title i prev) = Ok df →
          Forall (λ row, last row = Some (CStr (table_title i prev))) (df_rows df).
Proof.
  intros Hi. destruct (tables_from_lookup _ _ _ _ _ Hi) as [(k & Hk & Hprev) Hf].
  rewrite app_nil_r in Hprev. repeat split; eauto using table_frame_level.
  unfold table_title, label_by_rule, untitled. apply nearest_title_rule.
Qed.

(** X20.  The working half of the first run: with a date stamp on the page, a
    first run writes all three files and submits both messages. *)
Lemma first_run_with_stamp (e : env) (w : world) (r : response) (d : date) :
  http e = Ok r →
  fetch_update_date (BeautifulSoup (text r)) = Ok (Some d) →
  df_empty (combined (BeautifulSoup (text r))) = false →
  files w !! LAST_DATE_FILE = None →
  files w !! LAST_HASH_FILE = None →
  files (main e w).2 = saved_files d (combined (BeautifulSoup (text r))) (files w)
  ∧ smtp_log (main e w).2
    = smtp_log w ++ [join newline [date_message None d; content_message]].
Proof.
  intros Hhttp Hdate Hdf Hnodate Hnohash.
  rewrite main_run, Hhttp. cbv zeta. rewrite Hdate, Hdf.
  unfold stored_state. rewrite Hnodate, Hnohash.
  cbn [mbind result_bind fmap option_fmap option_map fst snd].
  unfold detect_changes.
  rewrite !(bool_decide_eq_true_2 (Some _ ≠ None)) by done.
  cbn [fst snd app]. by destruct (smtp_error e).
Qed.

(** X21.  After a save that stopped at the emptied date file, the next run
    over a page with a dataset cannot read its stored state: it ends with a
    [ValueError] and leaves the files as they are. *)
Lemma run_after_aborted_save (e : env) (w : world) (r : response)
    (latest : option date) :
  http e = Ok r →
  fetch_update_date (BeautifulSoup (text r)) = Ok latest →
  df_empty (combined (BeautifulSoup (text r))) = false →
  files w !! LAST_DATE_FILE = Some "" →
  ∃ msg, (main e w).1 = Raise (ValueError msg) ∧ files (main e w).2 = files w.
Proof.
  intros Hhttp Hdate Hdf Hempty.
  rewrite main_run, Hhttp. cbv zeta. rewrite Hdate, Hdf.
  unfold stored_state. rewrite Hempty. by eexists.
Qed.


(** ** Further properties of the state store *)

Lemma stored_state_reflects (fs : gmap string string) (d : date) (df : DataFrame) :
  valid_date d = true →
  reflects fs d df →
  stored_state fs = Ok (Some d, Some (fingerprint df)).
Proof.
  intros Hv (Hd & _ & Hh).
  unfold stored_state. rewrite Hd, Hh. unfold strftime_Ymd.
  rewrite strip_isoformat by done.
  fold (strftime_Ymd d). rewrite strptime_strftime by done.
  cbn. unfold fingerprint. by rewrite strip_hex.
Qed.

Lemma saved_files_twice (d1 d2 : date) (df1 df2 : DataFrame) (fs : gmap string string) :
  saved_files d2 df2 (saved_files d1 df1 fs) = saved_files d2 df2 fs.
Proof.
  apply map_eq. intros path. unfold saved_files.
  rewrite !lookup_insert. by repeat case_decide.
Qed.

(** X1.  Saving and then loading gives back what was saved: the date as a
    date and the fingerprint of the dataset, for every calendar date from
    the year 1000 on, the years that [%Y] writes in four digits with every
    C library. *)
Theorem save_then_load (d : date) (df : DataFrame) (w : world) :
  valid_date d = true →
  (1000 ≤ year d)%Z →
  (save_current_state (Some d) df;; load_previous_state) w
  = (Ok (Some d, Some (fingerprint df)),
     World (saved_files d df (files w)) (stdout w) (smtp_log w)).
Proof.
  intros Hv _. rewrite bind_run, save_current_state_run, load_previous_state_run.
  cbn [files]. by rewrite stored_state_saved.
Qed.

(** X2.  A second save replaces the first in full: the files hold the second
    date and dataset only, whatever the first save wrote. *)
Theorem save_overwrites (d1 d2 : date) (df1 df2 : DataFrame) (w : world) :
  (save_current_state (Some d1) df1;; save_current_state (Some d2) df2) w
  = save_current_state (Some d2) df2 w.
Proof.
  rewrite bind_run, !save_current_state_run. cbn [files stdout smtp_log].
  by rewrite saved_files_twice.
Qed.

(** X3.  Without a date file, loading never fails and changes nothing: the
    stored date is absent and the stored fingerprint is the stripped
    content of the fingerprint file, or absent when that file is missing
    too. *)
Theorem load_without_date_file (w : world) :
  files w !! LAST_DATE_FILE = None →
  load_previous_state w = (Ok (None, strip <$> files w !! LAST_HASH_FILE), w).
Proof.
  intros Hnone. rewrite load_previous_state_run. unfold stored_state.
  by rewrite Hnone.
Qed.

(** X4.  A date file whose stripped content is not a [YYYY-MM-DD] date makes
    loading raise the [ValueError] of the parse, with nothing changed and
    whatever the fingerprint file holds. *)
Theorem load_with_unreadable_date (w : world) (s : string) (x : exn) :
  files w !! LAST_DATE_FILE = Some s →
  strptime_Ymd (strip s) = Raise x →
  load_previous_state w = (Raise x, w).
Proof.
  intros Hs Hx. rewrite load_previous_state_run. unfold stored_state.
  by rewrite Hs, Hx.
Qed.

(** ** Further properties of a run *)

(** X5.  A run reads and writes the three state files only: every other
    path keeps its content, and no file that exists is ever removed. *)
Theorem main_touches_only_state_files (e : env) (w : world) (path : string) :
  (path ≠ LAST_DATE_FILE → path ≠ COMBINED_CSV_FILE → path ≠ LAST_HASH_FILE →
   files (main e w).2 !! path = files w !! path)
  ∧ (is_Some (files w !! path) → is_Some (files (main e w).2 !! path)).
Proof.
  rewrite main_run. cbv zeta.
  destruct (http e) as [r|x]; [|done].
  destruct (fetch_update_date _) as [latest|x]; [|done].
  destruct (df_empty _); [done|].
  destruct (stored_state _) as [prev|x]; [|done].
  destruct (detect_changes _ _ _ _).1; [|done].
  destruct latest as [d|]; [destruct (smtp_error e)|];
    cbn [snd files add_stdout]; unfold saved_files;
    (split; [intros; by rewrite !lookup_insert_ne by done|]);
    intros Hsome; rewrite !lookup_insert; by repeat case_decide.
Qed.

(** X6.  A run opens at most one SMTP session, and only after the three
    state files have been written from that run's date and dataset; the
    body it submits is never empty. *)
Theorem alert_only_after_save (e : env) (w : world) :
  smtp_log (main e w).2 = smtp_log w
  ∨ ∃ r d body,
      http e = Ok r
      ∧ fetch_update_date (BeautifulSoup (text r)) = Ok (Some d)
      ∧ smtp_log (main e w).2 = smtp_log w ++ [body]
      ∧ body ≠ ""
      ∧ files (main e w).2 = saved_files d (combined (BeautifulSoup (text r))) (files w).
Proof.
  rewrite main_run. cbv zeta.
  destruct (http e) as [r|x] eqn:Hr; [|by left].
  destruct (fetch_update_date _) as [latest|x] eqn:Hdate; [|by left].
  destruct (df_empty _); [by left|].
  destruct (stored_state _) as [prev|x]; [|by left].
  destruct (detect_changes _ _ _ _) as [changed msgs] eqn:Hdet. cbn [fst snd].
  destruct changed; [|by left].
  destruct latest as [d|]; [|by left].
  right. exists r, d, (join newline msgs).
  assert (join newline msgs ≠ "") as Hbody.
  { unfold detect_changes in Hdet.
    repeat case_bool_decide; inversion Hdet; subst; cbn [app join];
      intros Hempty; discriminate Hempty. }
  by destruct (smtp_error e).
Qed.

(** X7.  The change flag and the message list agree: the flag is set
    exactly when there is a message. *)
Theorem changed_iff_messages (current_date : option date) (current_fp : string)
    (stored_date : option date) (stored_fp : option string) :
  (detect_changes current_date current_fp stored_date stored_fp).1 = true
  ↔ (detect_changes current_date current_fp stored_date stored_fp).2 ≠ [].
Proof.
  unfold detect_changes.
  destruct current_date as [d|]; repeat case_bool_decide; cbn [fst snd app];
    split; done.
Qed.

(** X8.  A change of the date alone: when the stored state holds an earlier
    date and the dataset the page still has, the run writes the files again
    with the new date and submits the date message only. *)
Theorem date_only_change (e : env) (w : world) (r : response) (d0 d : date) :
  http e = Ok r →
  fetch_update_date (BeautifulSoup (text r)) = Ok (Some d) →
  df_empty (combined (BeautifulSoup (text r))) = false →
  valid_date d0 = true →
  reflects (files w) d0 (combined (BeautifulSoup (text r))) →
  d ≠ d0 →
  files (main e w).2 = saved_files d (combined (BeautifulSoup (text r))) (files w)
  ∧ smtp_log (main e w).2 = smtp_log w ++ [date_message (Some d0) d].
Proof.
  intros Hhttp Hdate Hdf Hv Hstored Hne.
  rewrite main_run, Hhttp. cbv zeta. rewrite Hdate, Hdf.
  rewrite (stored_state_reflects _ _ _ Hv Hstored). cbn [fst snd].
  unfold detect_changes.
  rewrite (bool_decide_eq_true_2 (Some d ≠ Some d0)) by congruence.
  rewrite (bool_decide_eq_false_2 (Some _ ≠ Some _)) by (by intros []).
  cbn [fst snd app join]. by destruct (smtp_error e).
Qed.

(** X9.  A change of the content alone: when the stored state holds the
    date the page still shows and a dataset with another fingerprint, the
    run writes the files again and submits the content message only. *)
Theorem content_only_change (e : env) (w : world) (r : response) (d : date)
    (df0 : DataFrame) :
  http e = Ok r →
  fetch_update_date (BeautifulSoup (text r)) = Ok (Some d) →
  df_empty (combined (BeautifulSoup (text r))) = false →
  reflects (files w) d df0 →
  fingerprint df0 ≠ fingerprint (combined (BeautifulSoup (text r))) →
  files (main e w).2 = saved_files d (combined (BeautifulSoup (text r))) (files w)
  ∧ smtp_log (main e w).2 = smtp_log w ++ [content_message].
Proof.
  intros Hhttp Hdate Hdf Hstored Hne.
  rewrite main_run, Hhttp. cbv zeta. rewrite Hdate, Hdf.
  rewrite (stored_state_reflects _ _ _ (fetch_update_date_valid _ _ Hdate) Hstored).
  cbn [fst snd]. unfold detect_changes.
  rewrite (bool_decide_eq_false_2 (Some d ≠ Some d)) by (by intros []).
  rewrite (bool_decide_eq_true_2 (Some _ ≠ Some _)) by congruence.
  cbn [fst snd app join]. by destruct (smtp_error e).
Qed.

(** X10.  A notification that fails is not tried again: the state is saved
    before the SMTP session, so when the session raises, the run ends with
    that error and the next run over the same page finds no change and
    opens no session. *)
Theorem failed_alert_is_not_retried (e1 e2 : env) (w : world) (r1 r2 : response)
    (d : date) (prev : option date * option string) (x : exn) :
  http e1 = Ok r1 →
  http e2 = Ok r2 →
  text r2 = text r1 →
  fetch_update_date (BeautifulSoup (text r1)) = Ok (Some d) →
  df_empty (combined (BeautifulSoup (text r1))) = false →
  stored_state (files w) = Ok prev →
  (detect_changes (Some d) (fingerprint (combined (BeautifulSoup (text r1))))
     prev.1 prev.2).1 = true →
  smtp_error e1 = Some x →
  (main e1 w).1 = Raise x
  ∧ files (main e1 w).2 = saved_files d (combined (BeautifulSoup (text r1))) (files w)
  ∧ main e2 (main e1 w).2
    = (Ok tt,
       add_stdout (main e1 w).2
         (start_lines e2
          ++ table_warnings 0 (find_all_tables (BeautifulSoup (text r1)))
          ++ ["✅ No changes detected."; finish_line e2])).
Proof.
  intros H1 H2 Htext Hdate Hdf Hprev Hdet Hsmtp.
  rewrite (main_run e1), H1. cbv zeta. rewrite Hdate, Hdf, Hprev, Hdet, Hsmtp.
  cbn [fst snd files]. repeat split.
  rewrite main_run, H2, Htext. cbv zeta. rewrite Hdate, Hdf.
  cbn [files add_stdout stdout smtp_log].
  rewrite stored_state_saved by eauto using fetch_update_date_valid.
  cbn [fst snd]. rewrite detect_changes_same by done. cbn [fst].
  f_equal. world_eq.
Qed.

(** X19.  A stamp that is gone from the page is not a change: with the
    stored state holding a date and the dataset the page still has, a run
    over the page without its stamp finds no change and writes nothing. *)
Theorem missing_stamp_is_not_a_change (e : env) (w : world) (r : response) (d0 : date) :
  http e = Ok r →
  fetch_update_date (BeautifulSoup (text r)) = Ok None →
  df_empty (combined (BeautifulSoup (text r))) = false →
  valid_date d0 = true →
  reflects (files w) d0 (combined (BeautifulSoup (text r))) →
  main e w
  = (Ok tt,
     add_stdout w
       (start_lines e
        ++ table_warnings 0 (find_all_tables (BeautifulSoup (text r)))
        ++ ["✅ No changes detected."; finish_line e])).
Proof.
  intros Hhttp Hdate Hdf Hv Hstored.
  rewrite main_run, Hhttp. cbv zeta. rewrite Hdate, Hdf.
  rewrite (stored_state_reflects _ _ _ Hv Hstored). cbn [fst snd].
  unfold detect_changes.
  rewrite (bool_decide_eq_false_2 (Some _ ≠ Some _)) by (by intros []).
  cbn [fst]. f_equal. world_eq.
Qed.

(** ** Further properties of the extraction *)

(** X11.  A table is skipped in exactly three cases: the reader raises, the
    frame it returns does not have six columns, or the frame has no row
    labelled 0 to drop (a table with no data row).  The label of the table
    plays no part. *)
Theorem table_frame_fails_iff (t : node) (title : string) (e : exn) :
  table_frame t title = Raise e
  ↔ read_html t = Raise e
    ∨ (∃ raw, read_html t = Ok raw
         ∧ length (df_columns raw) ≠ 6%nat
         ∧ e = ValueError
                 ("Length mismatch: Expected axis has "
                  +:+ pretty (length (df_columns raw))
                  +:+ " elements, new values have 6 elements"))
    ∨ (∃ raw, read_html t = Ok raw
         ∧ length (df_columns raw) = 6%nat
         ∧ (LInt 0 ∉ df_index raw)
         ∧ e = KeyError "[0] not found in axis").
Proof.
  unfold table_frame, set_columns, drop_index_0.
  destruct (read_html t) as [raw|x]; cbn [mbind result_bind].
  - destruct (decide (length (df_columns raw) = length columns)) as [Hc|Hc];
      cbn [mbind result_bind df_index].
    + case_bool_decide as H0; cbn [mbind result_bind].
      * split; [done|]. intros [?|[(raw' & Hr & Hn & _)|(raw' & Hr & _ & Hn & _)]];
          [done|..]; inversion Hr; subst; done.
      * split.
        -- intros He. inversion He; subst. right. right. by exists raw.
        -- intros [?|[(raw' & Hr & Hn & _)|(raw' & Hr & _ & _ & ->)]];
             [done| |done]. inversion Hr; subst. done.
    + split.
      * intros He. inversion He; subst. right. left. by exists raw.
      * intros [?|[(raw' & Hr & _ & ->)|(raw' & Hr & Hn & _)]]; [done|..];
          inversion Hr; subst; done.
  - split; [intros He; inversion He; by left|].
    intros [He|[(raw & Hr & _)|(raw & Hr & _)]]; [by inversion He|done..].
Qed.

Lemma filter_zip_range (start : nat) (rows : list (list cell)) :
  (0 < start)%nat →
  filter (λ p : label * list cell, p.1 ≠ LInt 0)
         (zip ((λ k, LInt (Z.of_nat k)) <$> seq start (length rows)) rows)
  = zip ((λ k, LInt (Z.of_nat k)) <$> seq start (length rows)) rows.
Proof.
  revert start. induction rows as [|row rows IH]; intros start Hs; [done|].
  cbn [length seq fmap list_fmap zip zip_with]. rewrite filter_cons. cbv beta.
  cbn [fst]. rewrite decide_True by (intros H; inversion H; lia).
  f_equal. apply IH. lia.
Qed.

(** X12.  From a frame with six columns and the default row labels 0, 1, ...,
    a table contributes every row but the first, each with the label of the
    table appended, under the seven column names and labelled from 0 again. *)
Theorem table_frame_drops_first_row (t : node) (title : string) (raw : DataFrame)
    (first : list cell) (rest : list (list cell)) :
  read_html t = Ok raw →
  length (df_columns raw) = 6%nat →
  df_rows raw = first :: rest →
  df_index raw = range_index (length (df_rows raw)) →
  table_frame t title
  = Ok (Frame (LStr <$> (columns ++ ["Level"]))
              (range_index (length rest))
              ((λ row, row ++ [CStr title]) <$> rest)).
Proof.
  intros Hraw Hcols Hrows Hindex.
  unfold table_frame, set_columns, drop_index_0. rewrite Hraw.
  cbn [mbind result_bind]. rewrite decide_True by done.
  cbn [mbind result_bind df_index df_rows df_columns].
  rewrite Hindex, Hrows. unfold range_index.
  cbn [length seq fmap list_fmap zip zip_with].
  rewrite bool_decide_eq_true_2 by (apply list_elem_of_here).
  cbn [mbind result_bind]. rewrite filter_cons. cbv beta. cbn [fst].
  rewrite decide_False by (by intros H; apply H).
  rewrite filter_zip_range by lia.
  unfold reset_index, add_column. cbn [df_columns df_index df_rows].
  rewrite snd_zip by (by rewrite length_fmap, length_seq). done.
Qed.

(** X13.  The frame of a table, and so the combined dataset, keeps one row
    label per row: a parsed table has the seven column names and the labels
    0, 1, ... of its own rows, and the labels of the combined dataset are
    as many as its rows. *)
Theorem combined_shape (soup : list node) :
  (∀ t title df,
     table_frame t title = Ok df →
     df_columns df = LStr <$> (columns ++ ["Level"])
     ∧ df_index df = range_index (length (df_rows df)))
  ∧ length (df_index (combined soup)) = length (df_rows (combined soup)).
Proof.
  assert (∀ t title df,
     table_frame t title = Ok df →
     df_columns df = LStr <$> (columns ++ ["Level"])
     ∧ df_index df = range_index (length (df_rows df))) as Hframe.
  { intros t title df. unfold table_frame, set_columns.
    destruct (read_html t) as [raw|]; [|done]. cbn [mbind result_bind].
    case_decide; [|done]. cbn [mbind result_bind].
    destruct (drop_index_0 _) as [df2|] eqn:Hdrop; [|done]. cbn [mbind result_bind].
    intros Hdf. inversion Hdf; subst. clear Hdf.
    unfold add_column, reset_index. cbn [df_columns df_index df_rows].
    rewrite length_fmap. split; [|done].
    unfold drop_index_0 in Hdrop. case_bool_decide; [|done].
    inversion Hdrop; subst. done. }
  split; [exact Hframe|].
  unfold combined. cbn [df_index df_rows].
  generalize 0%nat. induction (find_all_tables soup) as [|[prev t] rest IH];
    intros i; [done|].
  cbn [table_index table_rows]. rewrite !length_app, IH. f_equal.
  destruct (table_frame t _) as [df|] eqn:Hdf; [|done].
  destruct (Hframe _ _ _ Hdf) as [_ ->]. unfold range_index.
  by rewrite length_fmap, length_seq.
Qed.

Lemma nearest_title_nonempty (prevs : list node) (default : string) :
  default ≠ "" → nearest_title prevs default ≠ "".
Proof.
  intros Hd. induction prevs as [|n prevs IH]; [done|].
  cbn [nearest_title]. destruct (name_in title_tags n); [|done].
  destruct (string_is_empty _) eqn:He; [done|].
  intros ?%string_is_empty_spec. congruence.
Qed.

(** X15.  The label of a table is never empty. *)
Theorem table_title_nonempty (i : nat) (previous_elements : list node) :
  table_title i previous_elements ≠ "".
Proof.
  unfold table_title. apply nearest_title_nonempty.
  unfold untitled. intros H. discriminate H.
Qed.

(** ** Further properties of the date extraction *)

Lemma m_bind_Forall {A B} (P : B * string → Prop) (m : matcher A)
    (f : A → matcher B) (s : string) :
  (∀ a r, (a, r) ∈ m s → Forall P (f a r)) → Forall P ((m ≫= f) s).
Proof.
  intros H. unfold mbind, matcher_bind, m_bind.
  apply Forall_flat_map, Forall_forall. intros [a r] Hin. by apply H.
Qed.

Lemma m_val_digit_range (s : string) :
  Forall (λ p : Z * string, (0 ≤ p.1 ≤ 9)%Z) (m_val py_isdigit s).
Proof.
  unfold m_val. apply m_bind_Forall. intros c r Hin.
  apply Forall_singleton. cbn [fst].
  unfold m_char in Hin. destruct s as [|c' s]; [by apply elem_of_nil in Hin|].
  destruct (py_isdigit c') eqn:Hd; [|by apply elem_of_nil in Hin].
  apply list_elem_of_singleton in Hin. inversion Hin; subst.
  unfold py_isdigit in Hd. unfold digit_value.
  apply andb_prop in Hd as [?%Nat.leb_le ?%Nat.leb_le]. lia.
Qed.

Lemma re_y_range (s : string) :
  Forall (λ p : Z * string, (0 ≤ p.1 ≤ 99)%Z) (re_y s).
Proof.
  unfold re_y. apply m_bind_Forall. intros a r Ha.
  apply m_bind_Forall. intros b r' Hb. apply Forall_singleton. cbn [fst].
  pose proof (m_val_digit_range s) as Hs. rewrite Forall_forall in Hs.
  pose proof (m_val_digit_range r) as Hr. rewrite Forall_forall in Hr.
  specialize (Hs _ Ha). specialize (Hr _ Hb). cbn [fst] in *. lia.
Qed.

Lemma strptime_mdy_year (s : string) (d : date) :
  strptime_mdy s = Ok d → (1969 ≤ year d ≤ 2068)%Z.
Proof.
  unfold strptime_mdy.
  assert (Forall (λ p : Z * Z * Z * string, (1969 ≤ p.1.1.1 ≤ 2068)%Z)
            ((m ← re_m; m_lit "/";; dd ← re_d; m_lit "/";; y ← re_y;
              mret ((if (y <=? 68)%Z then y + 2000 else y + 1900)%Z, m, dd)) s))
    as Hall.
  { apply m_bind_Forall. intros m r1 _. apply m_bind_Forall. intros _ r2 _.
    apply m_bind_Forall. intros dd r3 _. apply m_bind_Forall. intros _ r4 _.
    apply m_bind_Forall. intros y r5 Hy. apply Forall_singleton. cbn [fst].
    pose proof (re_y_range r4) as Hr. rewrite Forall_forall in Hr.
    specialize (Hr _ Hy). cbn [fst] in Hr.
    destruct (y <=? 68)%Z eqn:Hle; [apply Z.leb_le in Hle|apply Z.leb_gt in Hle]; lia. }
  revert Hall.
  match goal with
  | |- Forall _ ?found → _ => destruct found as [|[[[y m] dd] rest] others]
  end; [done|].
  intros [Hy _]%Forall_cons. cbn [fst] in Hy.
  unfold strptime_finish. destruct (string_is_empty rest); [|done].
  intros [-> _]%make_date_ok. done.
Qed.

(** X16.  A date taken from the page is a calendar date between 1969 and
    2068: the two digits of the year are read as 2000 to 2068 up to 68 and
    as 1969 to 1999 from 69 on. *)
Theorem fetch_update_date_year_range (soup : list node) (d : date) :
  fetch_update_date soup = Ok (Some d) →
  valid_date d = true ∧ (1969 ≤ year d ≤ 2068)%Z.
Proof.
  intros H. split; [by eapply fetch_update_date_valid|].
  unfold fetch_update_date in H. destruct (re_search _ _) as [g|]; [|done].
  destruct (strptime_mdy g) as [d'|] eqn:Hg; [|done].
  cbn in H. inversion H; subst. by eapply strptime_mdy_year.
Qed.

Lemma m_lit_matches (lit s : string) :
  m_lit lit s ≠ [] → ∃ r, s = lit +:+ r.
Proof.
  revert s. induction lit as [|c lit IH]; intros s H; [by exists s|].
  cbn [m_lit] in H. destruct s as [|c' s]; [done|].
  destruct (decide (c = c')) as [->|]; [|done].
  destruct (IH _ H) as [r ->]. by exists r.
Qed.

Lemma re_search_found {A} (m : matcher A) (s : string) (a : A) :
  re_search m s = Some a → ∃ pre suf, s = pre +:+ suf ∧ m suf ≠ [].
Proof.
  induction s as [|c s IH]; cbn [re_search].
  - destruct (m "") as [|[a' ?] ?] eqn:Hm; [done|]. intros _.
    exists "", "". split; [done|]. by rewrite Hm.
  - destruct (m (String c s)) as [|[a' ?] ?] eqn:Hm.
    + intros H. destruct (IH H) as (pre & suf & -> & Hsuf).
      by exists (String c pre), suf.
    + intros _. exists "", (String c s). split; [done|]. by rewrite Hm.
Qed.

(** X17.  A page whose text does not contain [Last update:], in this
    spelling, has no update date; this is an absent date, not an error. *)
Theorem fetch_update_date_without_stamp (soup : list node) :
  (¬ ∃ pre post, soup_text soup = pre +:+ "Last update:" +:+ post) →
  fetch_update_date soup = Ok None.
Proof.
  intros Hno. unfold fetch_update_date.
  destruct (re_search _ _) as [g|] eqn:Hsearch; [|done].
  exfalso. apply Hno.
  destruct (re_search_found _ _ _ Hsearch) as (pre & suf & Htext & Hsuf).
  destruct (m_lit_matches "Last update:" suf) as [post ->].
  - intros Hlit. apply Hsuf. unfold last_update_re.
    unfold mbind at 1, matcher_bind at 1, m_bind at 1. by rewrite Hlit.
  - by exists pre, post.
Qed.










End Properties.

(** * The properties on concrete runs *)

(** The first run over the sample page without its stamp: the change is
    detected, the date file is left empty and nothing else is written. *)
Lemma first_run_without_stamp_witness :
  ∃ w', Sample.main (Sample.env_for "page without stamp") Sample.no_files
        = (Raise no_strftime, w')
    ∧ files w' !! LAST_DATE_FILE = Some ""
    ∧ files w' !! COMBINED_CSV_FILE = files Sample.no_files !! COMBINED_CSV_FILE
    ∧ files w' !! LAST_HASH_FILE = None
    ∧ smtp_log w' = smtp_log Sample.no_files.
Proof.
  apply (first_run_without_stamp Sample.BeautifulSoup Sample.read_html Sample.to_csv
           Sample.hash_pandas_object Sample.md5
           (Sample.env_for "page without stamp") Sample.no_files
           (Response 200 "page without stamp"));
    vm_compute; reflexivity.
Defined.

(** The same run, as the outcome of [main]: the error, the emptied date
    file, the lines printed so far and no SMTP session. *)
Lemma save_without_date_aborts_witness :
  Sample.main (Sample.env_for "page without stamp") Sample.no_files
  = (Raise no_strftime,
     World (<[LAST_DATE_FILE := ""]> ∅)
           (start_lines (Sample.env_for "page without stamp")
              ++ ["✅ Changes detected! Saving and notifying..."])
           []).
Proof.
  apply (save_without_date_aborts Sample.BeautifulSoup Sample.read_html Sample.to_csv
           Sample.hash_pandas_object Sample.md5
           (Sample.env_for "page without stamp") Sample.no_files
           (Response 200 "page without stamp") (None, None));
    vm_compute; reflexivity.
Defined.

(** The stored state holds the sample page and the page has been updated:
    the run that ends normally, and the save cut off or failing after the
    dataset file was opened. *)
Lemma state_files_after_run_witness :
  (files (main (λ _, Sample.page_updated) Sample.read_html Sample.to_csv
            Sample.hash_pandas_object Sample.md5 (Sample.env_for "page") Sample.stored).2
   = files Sample.stored
   ∨ ∃ r d',
       http (Sample.env_for "page") = Ok r
       ∧ fetch_update_date Sample.page_updated = Ok (Some d')
       ∧ files (main (λ _, Sample.page_updated) Sample.read_html Sample.to_csv
                  Sample.hash_pandas_object Sample.md5 (Sample.env_for "page")
                  Sample.stored).2
         = saved_files Sample.to_csv Sample.hash_pandas_object Sample.md5 d'
             (combined Sample.read_html Sample.page_updated) (files Sample.stored)
       ∧ Sample.reflects
           (files (main (λ _, Sample.page_updated) Sample.read_html Sample.to_csv
                     Sample.hash_pandas_object Sample.md5 (Sample.env_for "page")
                     Sample.stored).2)
           d' (combined Sample.read_html Sample.page_updated))
  ∧ Sample.interrupted_save 3 (Some Sample.new_date) Sample.new_df Sample.stored
    = (Ok tt,
       World (<[COMBINED_CSV_FILE := ""]>
                (<[LAST_DATE_FILE := "2024-03-09"]> (files Sample.stored))) [] [])
  ∧ save_failing_at Sample.to_csv Sample.hash_pandas_object Sample.md5 3
      (OtherError "No space left on device") (Some Sample.new_date) Sample.new_df
      Sample.stored
    = (Raise (OtherError "No space left on device"),
       World (<[COMBINED_CSV_FILE := ""]>
                (<[LAST_DATE_FILE := "2024-03-09"]> (files Sample.stored))) [] [])
  ∧ ¬ Sample.reflects
        (<[COMBINED_CSV_FILE := ""]>
           (<[LAST_DATE_FILE := "2024-03-09"]> (files Sample.stored)))
        Sample.old_date Sample.old_df
  ∧ ¬ Sample.reflects
        (<[COMBINED_CSV_FILE := ""]>
           (<[LAST_DATE_FILE := "2024-03-09"]> (files Sample.stored)))
        Sample.new_date Sample.new_df.
Proof.
  destruct (state_files_after_run (λ _, Sample.page_updated) Sample.read_html
              Sample.to_csv Sample.hash_pandas_object Sample.md5
              (Sample.env_for "page") Sample.stored 3
              (OtherError "No space left on device")
              Sample.new_date Sample.old_date Sample.new_df Sample.old_df)
    as (Hrun & Hcut & Hfail & Hmixed).
  split; [apply Hrun; left; vm_compute; reflexivity|].
  split; [exact Hcut|]. split; [exact Hfail|].
  apply Hmixed.
  - lia.
  - reflexivity.
  - reflexivity.
  - discriminate.
  - intros H. vm_compute in H. discriminate H.
  - intros H. vm_compute in H. discriminate H.
  - repeat split; vm_compute; reflexivity.
Defined.

(** Two runs over the stamped sample page, starting without files. *)
Lemma second_run_detects_nothing_witness :
  ∃ w1, Sample.main (Sample.env_for "page") Sample.no_files = (Ok tt, w1)
    ∧ Sample.main (Sample.env_for "page") w1
      = (Ok tt,
         World (files w1)
               (stdout w1 ++ start_lines (Sample.env_for "page")
                  ++ ["✅ No changes detected."; finish_line (Sample.env_for "page")])
               (smtp_log w1)).
Proof.
  eexists. split; [vm_compute; reflexivity|].
  apply (second_run_detects_nothing Sample.BeautifulSoup Sample.read_html Sample.to_csv
           Sample.hash_pandas_object Sample.md5
           (Sample.env_for "page") (Sample.env_for "page") Sample.no_files _
           (Response 200 "page") (Response 200 "page"));
    vm_compute; reflexivity.
Defined.

(** The sample page with three tables: the rows of the first and the third,
    and the warning for the second, which has five columns. *)
Lemma malformed_table_is_skipped_witness :
  df_rows (combined Sample.read_html Sample.page_three_tables)
  = [ (CStr <$> Sample.row1) ++ [CStr "Senior"];
      (CStr <$> Sample.row2) ++ [CStr "Junior"] ]
  ∧ table_warnings Sample.read_html 0 (find_all_tables Sample.page_three_tables)
    = [ "⚠️ Failed to parse table 2: Length mismatch: Expected axis has 5 elements, new values have 6 elements" ].
Proof.
  destruct (malformed_table_is_skipped Sample.read_html Sample.page_three_tables
              Sample.no_files) as (_ & _ & H).
  edestruct H as [Hrows Hwarnings]; [vm_compute; reflexivity..|].
  rewrite Hrows, Hwarnings. split; vm_compute; reflexivity.
Defined.

(** A run over the sample error page, which has no table. *)
Lemma empty_page_writes_nothing_witness :
  files (Sample.main (Sample.env_for "no such page") Sample.no_files).2 = ∅
  ∧ smtp_log (Sample.main (Sample.env_for "no such page") Sample.no_files).2 = []
  ∧ ∀ latest,
      fetch_update_date (Sample.BeautifulSoup "no such page") = Ok latest →
      Sample.main (Sample.env_for "no such page") Sample.no_files
      = (Ok tt,
         add_stdout Sample.no_files
           (start_lines (Sample.env_for "no such page")
            ++ table_warnings Sample.read_html 0
                 (find_all_tables (Sample.BeautifulSoup "no such page"))
            ++ ["❌ No tables found. Aborting."])).
Proof.
  apply (empty_page_writes_nothing Sample.BeautifulSoup Sample.read_html Sample.to_csv
           Sample.hash_pandas_object Sample.md5
           (Sample.env_for "no such page") Sample.no_files (Response 200 "no such page"));
    vm_compute; reflexivity.
Defined.

(** The table of the sample page takes the text of the [h2] before it. *)
Lemma table_title_rule_witness :
  ∃ prev t,
    find_all_tables Sample.page !! 0%nat = Some (prev, t)
    ∧ table_title 0 prev = "Senior"
    ∧ label_by_rule title_tags 0 prev = "Senior"
    ∧ filter (λ n, has_name "table" n = true) (descendants Sample.page) !! 0%nat = Some t.
Proof.
  eexists _, _. split; [vm_compute; reflexivity|].
  match goal with
  | |- table_title 0 ?p = _ ∧ _ ∧ _ = Some ?t =>
      destruct (table_title_rule Sample.read_html Sample.page 0 p t)
        as (_ & Hf & Ht & _); [vm_compute; reflexivity|]
  end.
  rewrite <- Ht. split; [vm_compute; reflexivity|]. split; [reflexivity|exact Hf].
Defined.

(** A 404 response with the sample error page as its body. *)
Lemma status_code_is_ignored_witness :
  main Sample.BeautifulSoup Sample.read_html Sample.to_csv Sample.hash_pandas_object
       Sample.md5
       (Env "09:00" "09:01" (Ok (Response 404 "no such page")) None) Sample.no_files
  = (Ok tt,
     add_stdout Sample.no_files
       ["Job started at: 09:00"; "🔍 Checking OneModel roles page...";
        "❌ No tables found. Aborting."]).
Proof.
  destruct (status_code_is_ignored Sample.BeautifulSoup Sample.read_html Sample.to_csv
              Sample.hash_pandas_object Sample.md5
              (Env "09:00" "09:01" (Ok (Response 404 "no such page")) None)
              Sample.no_files) as (_ & _ & H).
  apply (H (Response 404 "no such page") None); vm_compute; reflexivity.
Defined.

(** ** Where the claims as stated fail *)

(** C4 as stated fails.  The stored state holds the sample page; a save of
    the updated page that is cut off after the date has been written leaves
    the new date beside the old dataset and the old fingerprint, which are
    not those of the updated page: the state of neither observation. *)
Lemma interrupted_save_mixes_versions :
  Sample.reflects (files Sample.stored) Sample.old_date Sample.old_df
  ∧ ∃ w', Sample.interrupted_save 2 (Some Sample.new_date) Sample.new_df Sample.stored
          = (Ok tt, w')
      ∧ files w' !! LAST_DATE_FILE = Some "2024-03-09"
      ∧ files w' !! COMBINED_CSV_FILE = Some (Sample.to_csv Sample.old_df)
      ∧ files w' !! LAST_HASH_FILE = Some (Sample.fingerprint Sample.old_df)
      ∧ Sample.to_csv Sample.old_df ≠ Sample.to_csv Sample.new_df
      ∧ Sample.fingerprint Sample.old_df ≠ Sample.fingerprint Sample.new_df
      ∧ ¬ Sample.reflects (files w') Sample.old_date Sample.old_df
      ∧ ¬ Sample.reflects (files w') Sample.new_date Sample.new_df.
Proof.
  split; [repeat split; vm_compute; reflexivity|].
  eexists. split; [vm_compute; reflexivity|].
  repeat split; try (vm_compute; reflexivity).
  - intros H. vm_compute in H. discriminate.
  - intros H. vm_compute in H. discriminate.
  - intros (H & _). vm_compute in H. discriminate.
  - intros (_ & _ & H). vm_compute in H. discriminate.
Qed.

(** C8 as stated fails.  The page has no table, so its dataset is empty, but
    its stamp is not a date: the run ends with the [ValueError] of the
    date extraction, not normally. *)
Lemma empty_page_with_bad_stamp_raises :
  df_empty (combined Sample.read_html Sample.page_bad_stamp) = true
  ∧ Sample.main (Sample.env_for "page with bad stamp") Sample.no_files
    = (Raise (ValueError "time data '13/45/21' does not match format '%m/%d/%y'"),
       add_stdout Sample.no_files (start_lines (Sample.env_for "page with bad stamp"))).
Proof. split; vm_compute; reflexivity. Qed.

(** C9 as stated fails.  Under an [h5] heading the code finds no label
    although a heading with text precedes the table; under a paragraph that
    holds a [strong] element the code takes the text of [strong], not of
    the paragraph. *)
Lemma label_is_not_heading_or_paragraph :
  (∃ prev t, find_all_tables Sample.page_h5 = [(prev, t)]
     ∧ table_title 0 prev = "Untitled Table 1"
     ∧ label_by_rule heading_or_paragraph_tags 0 prev = "Roles")
  ∧ (∃ prev t, find_all_tables Sample.page_strong = [(prev, t)]
       ∧ table_title 0 prev = "Senior"
       ∧ label_by_rule heading_or_paragraph_tags 0 prev = "IntroSeniorroles").
Proof.
  split; eexists _, _; (split; [vm_compute; reflexivity|]);
    split; vm_compute; reflexivity.
Qed.

(** * The further properties on concrete input *)

Lemma save_then_load_witness :
  (save_current_state Sample.to_csv Sample.hash_pandas_object Sample.md5
     (Some Sample.old_date) Sample.old_df;; load_previous_state)
    Sample.no_files
  = (Ok (Some Sample.old_date, Some (Sample.fingerprint Sample.old_df)),
     World (saved_files Sample.to_csv Sample.hash_pandas_object Sample.md5
              Sample.old_date Sample.old_df ∅) [] []).
Proof.
  apply (save_then_load Sample.to_csv Sample.hash_pandas_object Sample.md5
           Sample.old_date Sample.old_df Sample.no_files).
  - reflexivity.
  - unfold Sample.old_date. cbn [year]. lia.
Defined.

Lemma load_without_date_file_witness :
  load_previous_state Sample.no_files = (Ok (None, None), Sample.no_files).
Proof. apply (load_without_date_file Sample.no_files). reflexivity. Defined.

Lemma load_with_unreadable_date_witness :
  load_previous_state (World {[ LAST_DATE_FILE := "yesterday" ]} [] [])
  = (Raise (ValueError "time data 'yesterday' does not match format '%Y-%m-%d'"),
     World {[ LAST_DATE_FILE := "yesterday" ]} [] []).
Proof.
  apply (load_with_unreadable_date (World {[ LAST_DATE_FILE := "yesterday" ]} [] [])
           "yesterday"); vm_compute; reflexivity.
Defined.

(** The stored state holds the dataset of the sample page under an earlier
    date. *)
Lemma date_only_change_witness :
  files (Sample.main (Sample.env_for "page")
           (World (saved_files Sample.to_csv Sample.hash_pandas_object Sample.md5
                     (Date 2024 3 1) Sample.old_df ∅) [] [])).2
  = saved_files Sample.to_csv Sample.hash_pandas_object Sample.md5
      (Date 2024 3 7) Sample.old_df
      (saved_files Sample.to_csv Sample.hash_pandas_object Sample.md5
         (Date 2024 3 1) Sample.old_df ∅)
  ∧ smtp_log (Sample.main (Sample.env_for "page")
                (World (saved_files Sample.to_csv Sample.hash_pandas_object Sample.md5
                          (Date 2024 3 1) Sample.old_df ∅) [] [])).2
    = [] ++ [date_message (Some (Date 2024 3 1)) (Date 2024 3 7)].
Proof.
  apply (date_only_change Sample.BeautifulSoup Sample.read_html Sample.to_csv
           Sample.hash_pandas_object Sample.md5 (Sample.env_for "page")
           (World (saved_files Sample.to_csv Sample.hash_pandas_object Sample.md5
                     (Date 2024 3 1) Sample.old_df ∅) [] [])
           (Response 200 "page") (Date 2024 3 1) (Date 2024 3 7));
    try (vm_compute; reflexivity).
  - repeat split; vm_compute; reflexivity.
  - discriminate.
Defined.

(** The stored state holds the sample page; the page now shows the same date
    over a table with one row less. *)
Lemma content_only_change_witness :
  smtp_log (main (λ _, [ Tag "p" [] [NavigableString "Last update: 3/7/24"];
                         Sample.table [Sample.header; Sample.row1] ])
                 Sample.read_html Sample.to_csv Sample.hash_pandas_object Sample.md5
                 (Sample.env_for "page") Sample.stored).2
  = [] ++ [content_message].
Proof.
  eapply (content_only_change
            (λ _, [ Tag "p" [] [NavigableString "Last update: 3/7/24"];
                    Sample.table [Sample.header; Sample.row1] ])
            Sample.read_html Sample.to_csv Sample.hash_pandas_object Sample.md5
            (Sample.env_for "page") Sample.stored (Response 200 "page")
            (Date 2024 3 7) Sample.old_df);
    try (vm_compute; reflexivity).
  - repeat split; vm_compute; reflexivity.
  - intros H. vm_compute in H. discriminate H.
Defined.

Lemma failed_alert_is_not_retried_witness :
  (main Sample.BeautifulSoup Sample.read_html Sample.to_csv Sample.hash_pandas_object
        Sample.md5
        (Env "09:00" "09:01" (Ok (Response 200 "page")) (Some (SMTPException "auth")))
        Sample.no_files).1
  = Raise (SMTPException "auth").
Proof.
  eapply (failed_alert_is_not_retried Sample.BeautifulSoup Sample.read_html Sample.to_csv
            Sample.hash_pandas_object Sample.md5
            (Env "09:00" "09:01" (Ok (Response 200 "page")) (Some (SMTPException "auth")))
            (Sample.env_for "page") Sample.no_files
            (Response 200 "page") (Response 200 "page") (Date 2024 3 7) (None, None));
    vm_compute; reflexivity.
Defined.

Lemma table_frame_drops_first_row_witness :
  table_frame Sample.read_html
    (Sample.table [Sample.header; Sample.row1; Sample.row2]) "Senior"
  = Ok (Frame (LStr <$> (columns ++ ["Level"]))
              (range_index 2)
              [ (CStr <$> Sample.row1) ++ [CStr "Senior"];
                (CStr <$> Sample.row2) ++ [CStr "Senior"] ]).
Proof.
  apply (table_frame_drops_first_row Sample.read_html _ "Senior"
           (Frame (range_index 6) (range_index 3)
                  [CStr <$> Sample.header; CStr <$> Sample.row1; CStr <$> Sample.row2])
           (CStr <$> Sample.header)
           [CStr <$> Sample.row1; CStr <$> Sample.row2]);
    vm_compute; reflexivity.
Defined.

Lemma fetch_update_date_year_range_witness :
  valid_date (Date 2024 3 7) = true ∧ (1969 ≤ year (Date 2024 3 7) ≤ 2068)%Z.
Proof. apply (fetch_update_date_year_range Sample.page). reflexivity. Defined.

(** The stamp in lower case is not a stamp. *)
Lemma fetch_update_date_without_stamp_witness :
  fetch_update_date [Tag "p" [] [NavigableString "last update: 3/7/24"]] = Ok None.
Proof.
  apply fetch_update_date_without_stamp.
  intros (pre & post & H). vm_compute in H.
  repeat (destruct pre as [|? pre]; [discriminate H|]; injection H as _ H).
  destruct pre; discriminate H.
Defined.


Lemma missing_stamp_is_not_a_change_witness :
  Sample.main (Sample.env_for "page without stamp") Sample.stored
  = (Ok tt,
     add_stdout Sample.stored
       (start_lines (Sample.env_for "page without stamp")
        ++ [] ++ ["✅ No changes detected."; finish_line (Sample.env_for "page without stamp")])).
Proof.
  apply (missing_stamp_is_not_a_change Sample.BeautifulSoup Sample.read_html Sample.to_csv
           Sample.hash_pandas_object Sample.md5
           (Sample.env_for "page without stamp") Sample.stored
           (Response 200 "page without stamp") Sample.old_date);
    try (vm_compute; reflexivity).
  repeat split; vm_compute; reflexivity.
Defined.

Lemma first_run_with_stamp_witness :
  files (Sample.main (Sample.env_for "page") Sample.no_files).2
  = saved_files Sample.to_csv Sample.hash_pandas_object Sample.md5
      (Date 2024 3 7) Sample.old_df ∅
  ∧ smtp_log (Sample.main (Sample.env_for "page") Sample.no_files).2
    = [] ++ [join newline [date_message None (Date 2024 3 7); content_message]].
Proof.
  apply (first_run_with_stamp Sample.BeautifulSoup Sample.read_html Sample.to_csv
           Sample.hash_pandas_object Sample.md5
           (Sample.env_for "page") Sample.no_files (Response 200 "page") (Date 2024 3 7));
    vm_compute; reflexivity.
Defined.

(** The run after a save that left the date file empty. *)
Lemma run_after_aborted_save_witness :
  ∃ msg,
    (Sample.main (Sample.env_for "page without stamp")
       (World {[ LAST_DATE_FILE := "" ]} [] [])).1 = Raise (ValueError msg)
    ∧ files (Sample.main (Sample.env_for "page without stamp")
               (World {[ LAST_DATE_FILE := "" ]} [] [])).2
      = files (World {[ LAST_DATE_FILE := "" ]} [] []).
Proof.
  apply (run_after_aborted_save Sample.BeautifulSoup Sample.read_html Sample.to_csv
           Sample.hash_pandas_object Sample.md5
           (Sample.env_for "page without stamp")
           (World {[ LAST_DATE_FILE := "" ]} [] [])
           (Response 200 "page without stamp") None);
    vm_compute; reflexivity.
Defined.
